(** * Product inventory API: a shallow embedding and its verified properties

  The development follows the layers of the application:

  - [Js]: the few pieces of the JavaScript runtime the code relies on
    (string helpers and the [RegExp] fragment used for name lookups);
  - [ProductModel]: the Mongoose schema of [product.model.js], with its
    setters, defaults, validators and the [pre('save')] hook;
  - [Collection]: the document store seen through the Mongoose queries the
    repository issues (a list of documents in natural order);
  - [ProductRepository], [ProductService], [Validator], [ErrorHandlers],
    [ProductController]: one definition per source function.

  Modelling conventions.  A string is the sequence of bytes of its UTF-8
  encoding; [Js.utf16Length] is the JavaScript [length] of the text, which
  counts UTF-16 code units.  White space and letter case are modelled on
  the ASCII range: statements that depend on them for other characters
  say that the text is ASCII.
  JavaScript numbers are exact: prices are rationals ([Q]), stock levels and
  pagination parameters are integers ([Z]); a request body is a record whose
  absent fields are [None], so the [isNaN] guards of the validator never
  fire on it.  Asynchronous calls are sequential state passing: an
  operation takes the collection and returns its outcome together with the
  collection it leaves behind. *)

From Stdlib Require Import List String Ascii ZArith QArith Bool Lia PeanoNat.
From Stdlib Require Import Permutation DecimalString.
From Stdlib Require Import Sorted.
Import ListNotations.

Set Implicit Arguments.

Open Scope string_scope.
Open Scope Z_scope.

(* ------------------------------------------------------------------ *)
(** ** JavaScript runtime *)

Module Js.

(** [WhiteSpace] and [LineTerminator] code points below 128, the ones
    [String.prototype.trim] strips. *)
Definition isWhiteSpace (c : ascii) : bool :=
  let n := nat_of_ascii c in
  ((n =? 32) || ((9 <=? n) && (n <=? 13)))%nat.

Definition isLineTerminator (c : ascii) : bool :=
  let n := nat_of_ascii c in ((n =? 10) || (n =? 13))%nat.

Definition isLower (c : ascii) : bool :=
  let n := nat_of_ascii c in ((97 <=? n) && (n <=? 122))%nat.

Definition isAlphaNum (c : ascii) : bool :=
  let n := nat_of_ascii c in
  (((97 <=? n) && (n <=? 122)) || ((65 <=? n) && (n <=? 90))
   || ((48 <=? n) && (n <=? 57)))%nat.

(** [toUpperCase] on one character of the ASCII range; the bytes of any
    other character are left as they are. *)
Definition upcase (c : ascii) : ascii :=
  if isLower c then ascii_of_nat (nat_of_ascii c - 32) else c.

Fixpoint toUpperCase (s : string) : string :=
  match s with
  | EmptyString => EmptyString
  | String c s' => String (upcase c) (toUpperCase s')
  end.

Fixpoint trimStart (s : string) : string :=
  match s with
  | EmptyString => EmptyString
  | String c s' => if isWhiteSpace c then trimStart s' else s
  end.

Definition reverse (s : string) : string :=
  string_of_list_ascii (rev (list_ascii_of_string s)).

Definition trim (s : string) : string :=
  reverse (trimStart (reverse (trimStart s))).

(** [Array.prototype.join]. *)
Definition join (sep : string) (l : list string) : string :=
  String.concat sep l.

(** [s.charAt(0).toUpperCase() + s.slice(1)]. *)
Definition capitalize (s : string) : string :=
  match s with
  | EmptyString => EmptyString
  | String c s' => String (upcase c) s'
  end.

(** The decimal text of an integer, as a template literal prints it. *)
Definition showZ (z : Z) : string := NilZero.string_of_int (Z.to_int z).

(** Equality of two strings up to letter case. *)
Definition eqIgnoreCase (a b : string) : bool :=
  String.eqb (toUpperCase a) (toUpperCase b).

(** *** Regular expressions

    The repository builds patterns by splicing a product name into
    [new RegExp(`^${name}$`, 'i')], so the name is read as pattern source.
    The fragment of the pattern language modelled here is: pattern
    characters, [.], the assertions [^] and [$], groups, alternation, the
    quantifiers [*], [+], [?] (and their lazy forms) and identity escapes.
    Character classes, braced quantifiers, group specifiers and escapes of
    letters or digits are reported as [Outside] the fragment. *)

Inductive regex : Type :=
| REps
| RChr (c : ascii)
| RAny
| RCat (r1 r2 : regex)
| RAlt (r1 r2 : regex)
| RStar (r : regex)
| RBol
| REol.

Inductive compiled : Type :=
| Compiled (r : regex)
| SyntaxError (msg : string)
| Outside.

(** What precedes the next pattern character in the current alternative. *)
Inductive tail_state : Type :=
| TNone     (* nothing that a quantifier could repeat *)
| TOpen     (* just after an opening parenthesis *)
| TAtom     (* an atom *)
| TQuant    (* a quantified atom *)
| TLazy.    (* a quantified atom with its lazy mark *)

Record frame : Type := {
  alts : list regex;   (* finished alternatives, last first *)
  terms : list regex   (* terms of the current alternative, last first *)
}.

Record pstate : Type := {
  stack : list frame;  (* enclosing groups *)
  cur : frame;
  tail : tail_state;
  esc : bool           (* the previous character was a backslash *)
}.

Definition mkSeq (ts : list regex) : regex :=
  fold_right RCat REps (rev ts).

Definition mkAlt (f : frame) : regex :=
  fold_left (fun acc a => RAlt a acc) (alts f) (mkSeq (terms f)).

Definition push (st : pstate) (r : regex) (t : tail_state) : pstate :=
  {| stack := stack st;
     cur := {| alts := alts (cur st); terms := r :: terms (cur st) |};
     tail := t; esc := false |}.

Inductive step_result : Type :=
| Next (st : pstate)
| Stop (c : compiled).

Definition nothing_to_repeat : step_result :=
  Stop (SyntaxError "Nothing to repeat").

Definition quantify (st : pstate) (q : regex -> regex) : step_result :=
  match tail st, terms (cur st) with
  | TAtom, r :: ts =>
      Next {| stack := stack st;
              cur := {| alts := alts (cur st); terms := q r :: ts |};
              tail := TQuant; esc := false |}
  | _, _ => nothing_to_repeat
  end.

Definition step (st : pstate) (c : ascii) : step_result :=
  if esc st then
    if isAlphaNum c then Stop Outside else Next (push st (RChr c) TAtom)
  else
    match c with
    | Ascii false false true true true false true false =>  (* backslash *)
        Next {| stack := stack st; cur := cur st; tail := tail st;
                esc := true |}
    | "("%char =>
        Next {| stack := cur st :: stack st;
                cur := {| alts := []; terms := [] |};
                tail := TOpen; esc := false |}
    | ")"%char =>
        match stack st with
        | [] => Stop (SyntaxError "Unmatched ')'")
        | f :: fs =>
            Next {| stack := fs;
                    cur := {| alts := alts f;
                              terms := mkAlt (cur st) :: terms f |};
                    tail := TAtom; esc := false |}
        end
    | "|"%char =>
        Next {| stack := stack st;
                cur := {| alts := mkSeq (terms (cur st)) :: alts (cur st);
                          terms := [] |};
                tail := TNone; esc := false |}
    | "*"%char => quantify st RStar
    | "+"%char => quantify st (fun r => RCat r (RStar r))
    | "?"%char =>
        match tail st with
        | TOpen => Stop Outside
        | TQuant =>
            Next {| stack := stack st; cur := cur st; tail := TLazy;
                    esc := false |}
        | _ => quantify st (fun r => RAlt r REps)
        end
    | "."%char => Next (push st RAny TAtom)
    | "^"%char => Next (push st RBol TNone)
    | "$"%char => Next (push st REol TNone)
    | "["%char => Stop Outside
    | "{"%char => Stop Outside
    | _ => Next (push st (RChr c) TAtom)
    end.

Definition finish (st : pstate) : compiled :=
  if esc st then SyntaxError "Backslash at end of pattern"
  else match stack st with
       | [] => Compiled (mkAlt (cur st))
       | _ :: _ => SyntaxError "Unterminated group"
       end.

Fixpoint run (st : pstate) (cs : list ascii) : compiled :=
  match cs with
  | [] => finish st
  | c :: cs' =>
      match step st c with
      | Next st' => run st' cs'
      | Stop r => r
      end
  end.

Definition start : pstate :=
  {| stack := []; cur := {| alts := []; terms := [] |};
     tail := TNone; esc := false |}.

(** [new RegExp(source, 'i')]. *)
Definition RegExp (source : string) : compiled :=
  run start (list_ascii_of_string source).

(** Matching, with the [i] flag: two characters match when their
    upper-case forms coincide.  The matcher is written with
    continuations, as the pattern semantics of the language is: [k]
    receives whether the position reached is the start of the subject and
    what is left of it. *)
Definition chrMatch (x c : ascii) : bool :=
  Ascii.eqb (upcase x) (upcase c).

Fixpoint matcher (r : regex) (k : bool -> list ascii -> bool)
         (atStart : bool) (s : list ascii) {struct r} : bool :=
  match r with
  | REps => k atStart s
  | RChr x =>
      match s with
      | c :: s' => chrMatch x c && k false s'
      | [] => false
      end
  | RAny =>
      match s with
      | c :: s' => negb (isLineTerminator c) && k false s'
      | [] => false
      end
  | RCat r1 r2 => matcher r1 (matcher r2 k) atStart s
  | RAlt r1 r2 => matcher r1 k atStart s || matcher r2 k atStart s
  | RStar r1 =>
      (fix star (n : nat) (b : bool) (s0 : list ascii) {struct n} : bool :=
         k b s0
         || match n with
            | O => false
            | S n' =>
                matcher r1
                  (fun b' s' =>
                     (List.length s' <? List.length s0)%nat && star n' b' s')
                  b s0
            end) (List.length s) atStart s
  | RBol => atStart && k atStart s
  | REol => match s with [] => k atStart s | _ :: _ => false end
  end.

(** The characters with a meaning in pattern syntax. *)
Definition isSyntaxCharacter (c : ascii) : bool :=
  existsb (Ascii.eqb c)
          (Ascii false false true true true false true false  (* backslash *)
           :: list_ascii_of_string "^$.*+?()[]{}|").

(** A string free of syntax characters. *)
Definition isLiteral (s : string) : bool :=
  forallb (fun c => negb (isSyntaxCharacter c)) (list_ascii_of_string s).

(** The pattern matches somewhere in the subject. *)
Fixpoint search (r : regex) (atStart : bool) (s : list ascii) : bool :=
  matcher r (fun _ _ => true) atStart s
  || match s with
     | [] => false
     | _ :: s' => search r false s'
     end.

(** What the pattern [^name$] of a literal name compiles to. *)
Definition anchored (cs : list ascii) : regex :=
  RCat RBol (fold_right RCat REps (map RChr cs ++ [REol])%list).

(** Two character sequences equal up to case. *)
Fixpoint eqChars (a b : list ascii) : bool :=
  match a, b with
  | [], [] => true
  | x :: a', c :: b' => chrMatch x c && eqChars a' b'
  | _, _ => false
  end.

(** [re.test(s)]. *)
Definition test (r : regex) (s : string) : bool :=
  search r true (list_ascii_of_string s).

(** Does [a] start [s], does [a] occur in [s], up to case? *)
Fixpoint prefixChars (a s : list ascii) : bool :=
  match a, s with
  | [], _ => true
  | x :: a', c :: s' => chrMatch x c && prefixChars a' s'
  | _ :: _, [] => false
  end.

Fixpoint occursIn (a s : list ascii) : bool :=
  prefixChars a s
  || match s with
     | [] => false
     | _ :: s' => occursIn a s'
     end.

(** [s.toUpperCase().includes(a.toUpperCase())]. *)
Definition includesIgnoreCase (a s : string) : bool :=
  occursIn (list_ascii_of_string a) (list_ascii_of_string s).

(** [s.length]: the number of UTF-16 code units of the text whose UTF-8
    encoding is [s].  A continuation byte counts for nothing, the first
    byte of a four-byte sequence (a character outside the basic plane, a
    surrogate pair in UTF-16) for two, any other byte for one. *)
Definition unitsOfByte (c : ascii) : nat :=
  let n := nat_of_ascii c in
  if ((128 <=? n) && (n <? 192))%nat then 0%nat
  else if (240 <=? n)%nat then 2%nat
  else 1%nat.

Fixpoint utf16Length (s : string) : nat :=
  match s with
  | EmptyString => 0%nat
  | String c s' => (unitsOfByte c + utf16Length s')%nat
  end.


(** [parseInt(s)] without a radix: leading white space, a sign, an
    optional [0x] prefix, then the longest run of digits; [None] is [NaN]. *)
Definition digitValue (radix : Z) (c : ascii) : option Z :=
  let n := Z.of_nat (nat_of_ascii c) in
  let v := if (48 <=? n) && (n <=? 57) then n - 48
           else if (97 <=? n) && (n <=? 122) then n - 87
           else if (65 <=? n) && (n <=? 90) then n - 55
           else radix in
  if v <? radix then Some v else None.

Fixpoint digits (radix : Z) (acc : option Z) (cs : list ascii) : option Z :=
  match cs with
  | [] => acc
  | c :: cs' =>
      match digitValue radix c with
      | Some d =>
          digits radix
                 (Some (radix * match acc with Some a => a | None => 0 end
                        + d))
                 cs'
      | None => acc
      end
  end.

Definition parseInt (s : string) : option Z :=
  let cs := list_ascii_of_string (trimStart s) in
  let '(sign, cs) :=
    match cs with
    | "-"%char :: r => (-1, r)
    | "+"%char :: r => (1, r)
    | _ => (1, cs)
    end in
  let '(radix, cs) :=
    match cs with
    | "0"%char :: "x"%char :: r => (16, r)
    | "0"%char :: "X"%char :: r => (16, r)
    | _ => (10, cs)
    end in
  option_map (Z.mul sign) (digits radix None cs).

End Js.

(* ------------------------------------------------------------------ *)
(** ** Errors and the outcome of an operation *)

Module ApiError.

(** Modelled from the spec: the class of [utils/ApiError.js], which is not
    part of the sources; an error of the application carries the uniform
    shape [{ statusCode, message }]. *)
Record t : Type := make { statusCode : Z; message : string }.

End ApiError.

(** What a function of the application can throw. *)
Inductive error : Type :=
| ApiErr (e : ApiError.t)
  (* an instance of [ApiError] *)
| MongooseValidationError (messages : list string)
  (* [err.name === 'ValidationError'], one message per failing path *)
| JsSyntaxError (msg : string)
  (* thrown by [new RegExp] on an ill-formed pattern *)
| MongoServerError (msg : string).
  (* the store rejects the query *)

(** How a call ends: with a value, with a thrown error, or [Beyond] what
    is modelled (a pattern outside the [RegExp] fragment was compiled), in
    which case the model says nothing about the run. *)
Inductive result (A : Type) : Type :=
| Ok (a : A)
| Throw (e : error)
| Beyond.

Arguments Ok {A} a.
Arguments Throw {A} e.
Arguments Beyond {A}.

(** [new ApiError(code, msg)] thrown. *)
Definition throwApi {A : Type} (code : Z) (msg : string) : result A :=
  Throw (ApiErr (ApiError.make code msg)).

(* ------------------------------------------------------------------ *)
(** ** product.model.js *)

Module ProductModel.

Definition ObjectId := N.

(** A stored document. *)
Record Product : Type := {
  _id : ObjectId;
  name : string;
  description : string;
  price : Q;
  category : string;
  stock : Z;
  isActive : bool;
  createdAt : Z;
  updatedAt : Z
}.

(** The object a document is built from ([req.body]). *)
Record productData : Type := {
  d_name : option string;
  d_description : option string;
  d_price : option Q;
  d_category : option string;
  d_stock : option Z;
  d_isActive : option bool
}.

Definition Qlt_bool (a b : Q) : bool := negb (Qle_bool b a).

Definition categoryValues : list string :=
  ["Electrónica"; "Ropa"; "Hogar"; "Libros"; "Otros"].

Definition includes (l : list string) (s : string) : bool :=
  existsb (String.eqb s) l.

(** [trim: true] setter of a string path. *)
Definition setTrim (v : option string) : option string :=
  option_map Js.trim v.

(** Validators of a string path: [required], [minlength], [maxlength].
    The first failing validator of a path gives its message. *)
Definition validateString (v : option string) (required : string)
           (min : nat) (minMsg : string) (max : nat) (maxMsg : string)
  : list string :=
  match v with
  | None => [required]
  | Some s =>
      if String.eqb s EmptyString then [required]
      else if (Js.utf16Length s <? min)%nat then [minMsg]
      else if (max <? Js.utf16Length s)%nat then [maxMsg]
      else []
  end.

Definition validateName (v : option string) : list string :=
  validateString v
    "El nombre del producto es obligatorio"
    6 "El nombre del producto debe tener al menos 3 caracteres"
    100 "El nombre del producto no debe exceder los 100 caracteres".

Definition validateDescription (v : option string) : list string :=
  validateString v
    "La descripción del producto es obligatoria"
    20 "La descripción del producto debe tener al menos 10 caracteres"
    500 "La descripción del producto no debe exceder los 500 caracteres".

Definition validatePrice (v : option Q) : list string :=
  match v with
  | None => ["El precio del producto es obligatorio"]
  | Some p =>
      if Qlt_bool p 0 then ["El precio del producto no puede ser negativo"]
      else []
  end.

Definition validateCategory (v : option string) : list string :=
  match v with
  | None => ["La categoría del producto es obligatoria"]
  | Some c =>
      if String.eqb c EmptyString then ["La categoría del producto es obligatoria"]
      else if includes categoryValues c then []
      else [c ++ " no en una categoría válida"]
  end.

(** [stock] has [default: 0], so [required] cannot fail. *)
Definition defaultStock (v : option Z) : Z :=
  match v with Some s => s | None => 0 end.

Definition validateStock (s : Z) : list string :=
  if s <? 0 then ["El stock del producto no puede ser negativo"] else [].

Definition defaultIsActive (v : option bool) : bool :=
  match v with Some b => b | None => true end.

(** Document validation, path by path in schema order. *)
Definition validate (d : productData) : list string :=
  validateName (setTrim (d_name d))
  ++ validateDescription (setTrim (d_description d))
  ++ validatePrice (d_price d)
  ++ validateCategory (d_category d)
  ++ validateStock (defaultStock (d_stock d)).

Definition orEmpty (v : option string) : string :=
  match v with Some s => s | None => EmptyString end.

Definition orZero (v : option Q) : Q :=
  match v with Some q => q | None => 0%Q end.

(** [new Product(data).save()] up to the write: validation runs first,
    then the [pre('save')] hook capitalises the name; the store assigns
    the identifier and the timestamps. *)
Definition prepare (d : productData) (id : ObjectId) (now : Z)
  : result Product :=
  match validate d with
  | [] =>
      Ok {| _id := id;
            name := Js.capitalize (orEmpty (setTrim (d_name d)));
            description := orEmpty (setTrim (d_description d));
            price := orZero (d_price d);
            category := orEmpty (d_category d);
            stock := defaultStock (d_stock d);
            isActive := defaultIsActive (d_isActive d);
            createdAt := now;
            updatedAt := now |}
  | msgs => Throw (MongooseValidationError msgs)
  end.

(** [productSchema.methods.isAvailable]. *)
Definition isAvailable (p : Product) : bool :=
  isActive p && (0 <? stock p).

(** Update validators ([runValidators: true]): the validators of the paths
    the update sets, after their setters. *)
Definition validateUpdate (u : productData) : list string :=
  (match setTrim (d_name u) with
   | Some n => validateName (Some n)
   | None => []
   end
   ++ match setTrim (d_description u) with
      | Some s => validateDescription (Some s)
      | None => []
      end
   ++ match d_price u with
      | Some q => validatePrice (Some q)
      | None => []
      end
   ++ match d_category u with
      | Some c => validateCategory (Some c)
      | None => []
      end
   ++ match d_stock u with
      | Some s => validateStock s
      | None => []
      end)%list.

(** The document after [$set] of the fields the update carries; the
    [pre('save')] hook does not run on an update. *)
Definition applyData (u : productData) (now : Z) (p : Product) : Product :=
  {| _id := _id p;
     name := match setTrim (d_name u) with Some n => n | None => name p end;
     description :=
       match setTrim (d_description u) with
       | Some s => s
       | None => description p
       end;
     price := match d_price u with Some q => q | None => price p end;
     category := match d_category u with Some c => c | None => category p end;
     stock := match d_stock u with Some s => s | None => stock p end;
     isActive := match d_isActive u with Some b => b | None => isActive p end;
     createdAt := createdAt p;
     updatedAt := now |}.

End ProductModel.

Import ProductModel.

(* ------------------------------------------------------------------ *)
(** ** The document store

    A collection is the list of its documents in natural (insertion)
    order.  The definitions below are the Mongoose calls the repository
    makes, with the query and update documents it passes. *)

Module Collection.

Definition t := list Product.

(** The query documents of the repository: every condition is optional,
    [{}] is [all]. *)
Record query : Type := {
  q_name : option Js.regex;       (* name: /re/i *)
  q_id_ne : option ObjectId;      (* _id: { $ne: id } *)
  q_category : option string;     (* category *)
  q_isActive : option bool;       (* isActive *)
  q_stock_lte : option Z          (* stock: { $lte: n } *)
}.

Definition all : query :=
  {| q_name := None; q_id_ne := None; q_category := None;
     q_isActive := None; q_stock_lte := None |}.

Definition holds {A : Type} (c : option A) (f : A -> bool) : bool :=
  match c with Some a => f a | None => true end.

Definition matches (q : query) (p : Product) : bool :=
  holds (q_name q) (fun r => Js.test r (name p))
  && holds (q_id_ne q) (fun i => negb (N.eqb (_id p) i))
  && holds (q_category q) (fun c => String.eqb (category p) c)
  && holds (q_isActive q) (fun b => Bool.eqb (isActive p) b)
  && holds (q_stock_lte q) (fun n => stock p <=? n).

Definition find (q : query) (c : t) : list Product := filter (matches q) c.

Definition findOne (q : query) (c : t) : option Product :=
  List.find (matches q) c.

Definition countDocuments (q : query) (c : t) : Z :=
  Z.of_nat (List.length (find q c)).

Definition hasId (id : ObjectId) (p : Product) : bool := N.eqb (_id p) id.

Definition findById (id : ObjectId) (c : t) : option Product :=
  List.find (hasId id) c.

(** The update documents of the repository. *)
Inductive update : Type :=
| SetIsActive (b : bool)    (* { isActive: b } *)
| IncStock (n : Z).         (* { $inc: { stock: n } } *)

(** The document after the update; [timestamps: true] refreshes
    [updatedAt]. *)
Definition apply (u : update) (now : Z) (p : Product) : Product :=
  match u with
  | SetIsActive b =>
      {| _id := _id p; name := name p; description := description p;
         price := price p; category := category p; stock := stock p;
         isActive := b; createdAt := createdAt p; updatedAt := now |}
  | IncStock n =>
      {| _id := _id p; name := name p; description := description p;
         price := price p; category := category p; stock := stock p + n;
         isActive := isActive p; createdAt := createdAt p;
         updatedAt := now |}
  end.

(** The collection with the first document of that identifier replaced. *)
Fixpoint replaceById (id : ObjectId) (f : Product -> Product) (c : t) : t :=
  match c with
  | [] => []
  | p :: c' =>
      if hasId id p then f p :: c' else p :: replaceById id f c'
  end.

Fixpoint removeById (id : ObjectId) (c : t) : t :=
  match c with
  | [] => []
  | p :: c' => if hasId id p then c' else p :: removeById id c'
  end.

(** [findByIdAndUpdate(id, u, { new: true })]: the updated document, or
    [null], and the collection afterwards. *)
Definition findByIdAndUpdate (id : ObjectId) (u : update) (now : Z) (c : t)
  : option Product * t :=
  match findById id c with
  | Some p => (Some (apply u now p), replaceById id (apply u now) c)
  | None => (None, c)
  end.

Definition findByIdAndDelete (id : ObjectId) (c : t) : option Product * t :=
  (findById id c, removeById id c).

(** A fresh identifier for an inserted document. *)
Definition freshId (c : t) : ObjectId :=
  N.succ (fold_right (fun p m => N.max (_id p) m) 0%N c).

Definition insert (p : Product) (c : t) : t := (c ++ [p])%list.

(** *** Cursors: sort, skip, limit *)

Inductive value : Type :=
| VMissing
| VNum (q : Q)
| VStr (s : string)
| VId (i : ObjectId)
| VBool (b : bool)
| VDate (d : Z).

(** The value a document has at a path. *)
Definition path (f : string) (p : Product) : value :=
  if String.eqb f "_id" then VId (_id p)
  else if String.eqb f "name" then VStr (name p)
  else if String.eqb f "description" then VStr (description p)
  else if String.eqb f "price" then VNum (price p)
  else if String.eqb f "category" then VStr (category p)
  else if String.eqb f "stock" then VNum (inject_Z (stock p))
  else if String.eqb f "isActive" then VBool (isActive p)
  else if String.eqb f "createdAt" then VDate (createdAt p)
  else if String.eqb f "updatedAt" then VDate (updatedAt p)
  else VMissing.

(** Rank of a type in the store's comparison order. *)
Definition rank (v : value) : Z :=
  match v with
  | VMissing => 0 | VNum _ => 1 | VStr _ => 2
  | VId _ => 3 | VBool _ => 4 | VDate _ => 5
  end.

Definition value_leb (a b : value) : bool :=
  match a, b with
  | VNum x, VNum y => Qle_bool x y
  | VStr x, VStr y =>
      match String.compare x y with Gt => false | _ => true end
  | VId x, VId y => N.leb x y
  | VBool x, VBool y => implb x y
  | VDate x, VDate y => x <=? y
  | _, _ => rank a <=? rank b
  end.

(** [{ [f]: 1 }] or [{ [f]: -1 }]: does [x] come no later than [y]? *)
Definition before (f : string) (dir : Z) (x y : Product) : bool :=
  if dir =? 1 then value_leb (path f x) (path f y)
  else value_leb (path f y) (path f x).

Fixpoint insertSorted (le : Product -> Product -> bool) (x : Product)
         (l : list Product) : list Product :=
  match l with
  | [] => [x]
  | y :: l' => if le x y then x :: l else y :: insertSorted le x l'
  end.

(** Documents that compare equal keep their natural order. *)
Fixpoint sort (f : string) (dir : Z) (l : list Product) : list Product :=
  match l with
  | [] => []
  | x :: l' => insertSorted (before f dir) x (sort f dir l')
  end.

(** [skip(n)]: the store rejects a negative count. *)
Definition skip (n : Z) (l : list Product) : result (list Product) :=
  if n <? 0 then Throw (MongoServerError "Skip value must be non-negative")
  else Ok (List.skipn (Z.to_nat n) l).

(** [limit(n)]: zero means no limit, a negative limit counts as its
    absolute value. *)
Definition limit (n : Z) (l : list Product) : list Product :=
  if n =? 0 then l else List.firstn (Z.to_nat (Z.abs n)) l.

(** [findByIdAndUpdate(id, data, { new: true })] for a plain object of
    fields. *)
Definition findByIdAndSet (id : ObjectId) (u : productData) (now : Z)
           (c : t) : option Product * t :=
  match findById id c with
  | Some p => (Some (applyData u now p), replaceById id (applyData u now) c)
  | None => (None, c)
  end.

End Collection.

(** Calls that read or write the collection: the outcome and the collection
    left behind.  A thrown error keeps the writes made before it. *)
Definition io (A : Type) : Type := Collection.t -> result A * Collection.t.

Definition ret {A : Type} (a : A) : io A := fun c => (Ok a, c).

Definition lift {A : Type} (r : result A) : io A := fun c => (r, c).

Definition throw {A : Type} (code : Z) (msg : string) : io A :=
  lift (throwApi code msg).

Definition bind {A B : Type} (m : io A) (f : A -> io B) : io B :=
  fun c =>
    match m c with
    | (Ok a, c') => f a c'
    | (Throw e, c') => (Throw e, c')
    | (Beyond, c') => (Beyond, c')
    end.

(** A read of the collection. *)
Definition reads {A : Type} (f : Collection.t -> A) : io A :=
  fun c => (Ok (f c), c).

Notation "x <- m ;; k" := (bind m (fun x => k))
  (at level 61, m at next level, right associativity).

(* ------------------------------------------------------------------ *)
(** ** product.repository.js *)

Module ProductRepository.

Import Collection.

(** [create(productData)]: [new Product(productData).save()]. *)
Definition create (d : productData) (now : Z) : io Product :=
  fun c =>
    match ProductModel.prepare d (freshId c) now with
    | Ok p => (Ok p, insert p c)
    | Throw e => (Throw e, c)
    | Beyond => (Beyond, c)
    end.

Record options : Type := {
  o_page : option Z;
  o_limit : option Z;
  o_sortBy : option string;
  o_sortOrder : option string
}.

(** [options = {}]. *)
Definition noOptions : options :=
  {| o_page := None; o_limit := None; o_sortBy := None;
     o_sortOrder := None |}.

Definition orElse {A : Type} (v : option A) (d : A) : A :=
  match v with Some a => a | None => d end.

Record pagination : Type := {
  total : Z;
  page : Z;
  totalPages : option Z;   (* [None]: not a finite number (limit 0) *)
  hasMore : bool
}.

Record listing : Type := {
  products : list Product;
  paging : pagination
}.

(** [Math.ceil(a / b)]. *)
Definition ceilDiv (a b : Z) : option Z :=
  if b =? 0 then None else Some (- ((- a) / b)).

(** [findAll(filters = {}, options = {})]. *)
Definition findAll (filters : Collection.query) (opts : options)
  : io listing :=
  let page := orElse (o_page opts) 1 in
  let limit := orElse (o_limit opts) 10 in
  let sortBy := orElse (o_sortBy opts) "createdAt" in
  let sortOrder := orElse (o_sortOrder opts) "desc" in
  let skip := (page - 1) * limit in
  let dir := if String.eqb sortOrder "asc" then 1 else -1 in
  products <- (fun c =>
                 (match Collection.skip skip
                          (Collection.sort sortBy dir (find filters c)) with
                  | Ok l => Ok (Collection.limit limit l)
                  | Throw e => Throw e
                  | Beyond => Beyond
                  end, c)) ;;
  total <- reads (countDocuments filters) ;;
  ret {| products := products;
         paging := {| total := total;
                      page := page;
                      totalPages := ceilDiv total limit;
                      hasMore :=
                        skip + Z.of_nat (List.length products) <? total |}
      |}.

Definition findById (id : ObjectId) : io (option Product) :=
  reads (Collection.findById id).

(** [softDelete(id)]. *)
Definition softDelete (id : ObjectId) (now : Z) : io (option Product) :=
  fun c =>
    let '(r, c') := findByIdAndUpdate id (SetIsActive false) now c in
    (Ok r, c').

(** [hardDelete(id)]. *)
Definition hardDelete (id : ObjectId) : io (option Product) :=
  fun c => let '(r, c') := findByIdAndDelete id c in (Ok r, c').

(** [findByCategory(category)]: [{ category, isActive: true }]. *)
Definition findByCategory (cat : string) : io (list Product) :=
  reads (find {| q_name := None; q_id_ne := None;
                 q_category := Some cat; q_isActive := Some true;
                 q_stock_lte := None |}).

(** [findLowStock(threshold = 10)]:
    [{ stock: { $lte: threshold }, isActive: true }]. *)
Definition findLowStock (threshold : option Z) : io (list Product) :=
  reads (find {| q_name := None; q_id_ne := None;
                 q_category := None; q_isActive := Some true;
                 q_stock_lte := Some (orElse threshold 10) |}).

(** [updateStock(id, quantity)]: update validators do not apply to
    [$inc]. *)
Definition updateStock (id : ObjectId) (quantity : Z) (now : Z)
  : io (option Product) :=
  fun c =>
    let '(r, c') := findByIdAndUpdate id (IncStock quantity) now c in
    (Ok r, c').

(** The text [`${name}`] of a possibly absent name. *)
Definition template (name : option string) : string :=
  orElse name "undefined".

Definition isSome {A : Type} (v : option A) : bool :=
  match v with Some _ => true | None => false end.

(** [existsByName(name, excludeId = null)]. *)
Definition existsByName (name : option string) (excludeId : option ObjectId)
  : io bool :=
  match Js.RegExp ("^" ++ template name ++ "$") with
  | Js.Compiled re =>
      product <- reads (findOne {| q_name := Some re; q_id_ne := excludeId;
                                   q_category := None; q_isActive := None;
                                   q_stock_lte := None |}) ;;
      ret (isSome product)
  | Js.SyntaxError msg => lift (Throw (JsSyntaxError msg))
  | Js.Outside => lift Beyond
  end.

(** [findByName(name)]: [{ name: new RegExp(name, 'i') }]. *)
Definition findByName (name : string) : io (option Product) :=
  match Js.RegExp name with
  | Js.Compiled re =>
      reads (findOne {| q_name := Some re; q_id_ne := None;
                        q_category := None; q_isActive := None;
                        q_stock_lte := None |})
  | Js.SyntaxError msg => lift (Throw (JsSyntaxError msg))
  | Js.Outside => lift Beyond
  end.

(** [update(id, updateData)]: the update is validated before it is sent
    to the store. *)
Definition update (id : ObjectId) (updateData : productData) (now : Z)
  : io (option Product) :=
  fun c =>
    match ProductModel.validateUpdate updateData with
    | [] =>
        let '(r, c') := findByIdAndSet id updateData now c in (Ok r, c')
    | msgs => (Throw (MongooseValidationError msgs), c)
    end.

End ProductRepository.

(* ------------------------------------------------------------------ *)
(** ** product.service.js *)

Module ProductService.

Import ProductRepository.

Definition validCategories : list string :=
  ["electronics"; "clothing"; "food"; "books"; "other"].

Definition invalidCategory : string :=
  "Categoría inválida. Opciones: " ++ Js.join ", " validCategories.

(** [productData.price < 0.01]; an absent price compares false. *)
Definition belowMinimum (price : option Q) : bool :=
  match price with
  | Some p => Qlt_bool p (1 # 100)
  | None => false
  end.

(** [createProduct(productData)]. *)
Definition createProduct (d : productData) (now : Z) : io Product :=
  existingProduct <- existsByName (d_name d) None ;;
  if existingProduct : bool then
    throw 400 "Ya existe un producto con ese nombre"
  else if belowMinimum (d_price d) then
    throw 400 "El precio debe ser mayor a $0.01"
  else
    create d now.

(** [getProductById(id)]. *)
Definition getProductById (id : ObjectId) : io Product :=
  product <- findById id ;;
  match product with
  | None => throw 404 "Producto no encontrado"
  | Some p => ret p
  end.

(** [deleteProduct(id)]: the soft delete. *)
Definition deleteProduct (id : ObjectId) (now : Z) : io (option Product) :=
  product <- findById id ;;
  match product with
  | None => throw 404 "Producto no encontrado"
  | Some p =>
      if negb (isActive p) then throw 400 "El producto ya está inactivo"
      else softDelete id now
  end.

(** [permanentDeleteProduct(id)]. *)
Definition permanentDeleteProduct (id : ObjectId) : io string :=
  product <- findById id ;;
  match product with
  | None => throw 404 "Producto no encontrado"
  | Some _ =>
      _ <- hardDelete id ;;
      ret "Producto eliminado permanentemente"
  end.

(** [getProductsByCategory(category)]. *)
Definition getProductsByCategory (cat : string) : io (list Product) :=
  if negb (includes validCategories cat) then throw 400 invalidCategory
  else findByCategory cat.

(** [getLowStockProducts(threshold = 10)]. *)
Definition getLowStockProducts (threshold : option Z)
  : io (list Product) :=
  if orElse threshold 10 <? 0 then
    throw 400 "El umbral debe ser un número positivo"
  else findLowStock (Some (orElse threshold 10)).

(** [updateStock(id, quantity)]. *)
Definition updateStock (id : ObjectId) (quantity : Z) (now : Z)
  : io (option Product) :=
  product <- findById id ;;
  match product with
  | None => throw 404 "Producto no encontrado"
  | Some p =>
      let newStock := stock p + quantity in
      if newStock <? 0 then
        throw 400 ("Stock insuficiente. Stock actual: " ++ Js.showZ (stock p))
      else ProductRepository.updateStock id quantity now
  end.

Record statistics : Type := {
  totalProducts : Z;
  activeProducts : Z;
  inactiveProducts : Z;
  lowStockProducts : Z;
  totalInventoryValue : Q;
  byCategory : list (string * Z)   (* keys in order of first appearance *)
}.

(** [byCategory[k]++], the key being created at 0 when absent. *)
Fixpoint increment (k : string) (m : list (string * Z)) : list (string * Z) :=
  match m with
  | [] => [(k, 0 + 1)]
  | (k', n) :: m' =>
      if String.eqb k' k then (k', n + 1) :: m'
      else (k', n) :: increment k m'
  end.

Definition count (f : Product -> bool) (l : list Product) : Z :=
  Z.of_nat (List.length (filter f l)).

(** [getStatistics()]. *)
Definition getStatistics : io statistics :=
  allProducts <- findAll Collection.all noOptions ;;
  lowStock <- findLowStock None ;;
  ret {| totalProducts := total (paging allProducts);
         activeProducts := count isActive (products allProducts);
         inactiveProducts :=
           count (fun p => negb (isActive p)) (products allProducts);
         lowStockProducts := Z.of_nat (List.length lowStock);
         totalInventoryValue :=
           fold_left (fun sum p => (sum + price p * inject_Z (stock p))%Q)
                     (products allProducts) 0%Q;
         byCategory :=
           fold_left (fun m p => increment (category p) m)
                     (products allProducts) [] |}.

(** [updateData.name && updateData.name !== existingProduct.name]. *)
Definition renames (updateData : productData) (existing : Product) : bool :=
  match d_name updateData with
  | Some n => negb (String.eqb n EmptyString)
              && negb (String.eqb n (name existing))
  | None => false
  end.

(** [updateProduct(id, updateData)]. *)
Definition updateProduct (id : ObjectId) (updateData : productData)
           (now : Z) : io (option Product) :=
  existingProduct <- findById id ;;
  match existingProduct with
  | None => throw 404 "Producto no encontrado"
  | Some existing =>
      duplicated <- (if renames updateData existing
                     then existsByName (d_name updateData) (Some id)
                     else ret false) ;;
      if duplicated : bool then
        throw 400 "Ya existe otro producto con ese nombre"
      else if belowMinimum (d_price updateData) then
        throw 400 "El precio debe ser mayor a $0.01"
      else ProductRepository.update id updateData now
  end.

End ProductService.

(* ------------------------------------------------------------------ *)
(** ** middlewares/validator.js *)

Module Validator.

Definition validCategories : list string :=
  ["electronics"; "clothing"; "food"; "books"; "other"].

(** [!s || s.trim() === '']. *)
Definition missing (v : option string) : bool :=
  match v with
  | None => true
  | Some s => String.eqb s EmptyString || String.eqb (Js.trim s) EmptyString
  end.

(** [s.length < lo || s.length > hi]. *)
Definition lengthOutside (v : option string) (lo hi : nat) : bool :=
  match v with
  | None => false
  | Some s => (Js.utf16Length s <? lo)%nat || (hi <? Js.utf16Length s)%nat
  end.

Definition nameErrors (v : option string) : list string :=
  if missing v then ["El nombre es obligatorio"]
  else if lengthOutside v 3 100 then
    ["El nombre debe tener entre 3 y 100 caracteres"]
  else [].

Definition descriptionErrors (v : option string) : list string :=
  if missing v then ["La descripción es obligatoria"]
  else if lengthOutside v 10 500 then
    ["La descripción debe tener entre 10 y 500 caracteres"]
  else [].

Definition priceErrors (v : option Q) : list string :=
  match v with
  | None => ["El precio es obligatorio"]
  | Some p =>
      if Qlt_bool p 0 then ["El precio debe ser un número positivo"] else []
  end.

Definition stockErrors (v : option Z) : list string :=
  match v with
  | Some s =>
      if s <? 0 then ["El stock debe ser un número positivo"] else []
  | None => []
  end.

Definition categoryErrors (v : option string) : list string :=
  match v with
  | None => ["La categoría es obligatoria"]
  | Some c =>
      if String.eqb c EmptyString then ["La categoría es obligatoria"]
      else if negb (includes validCategories c) then
        ["Categoría inválida. Opciones: " ++ Js.join ", " validCategories]
      else []
  end.

(** The [errors] array of [validateProductCreate]. *)
Definition createErrors (body : productData) : list string :=
  (nameErrors (d_name body)
   ++ descriptionErrors (d_description body)
   ++ priceErrors (d_price body)
   ++ stockErrors (d_stock body)
   ++ categoryErrors (d_category body))%list.

(** [validateProductCreate(req, res, next)]: [Ok tt] is the call of
    [next()]. *)
Definition validateProductCreate (body : productData) : result unit :=
  match createErrors body with
  | [] => Ok tt
  | errors => throwApi 400 (Js.join "; " errors)
  end.

(** The [errors] array of [validateProductUpdate]: only the fields
    present are checked. *)
Definition updateErrors (body : productData) : list string :=
  (match d_name body with
   | Some n =>
       if String.eqb (Js.trim n) EmptyString then
         ["El nombre no puede estar vacío"]
       else if lengthOutside (Some n) 3 100 then
         ["El nombre debe tener entre 3 y 100 caracteres"]
       else []
   | None => []
   end
   ++ match d_description body with
      | Some s =>
          if String.eqb (Js.trim s) EmptyString then
            ["La descripción no puede estar vacía"]
          else if lengthOutside (Some s) 10 500 then
            ["La descripción debe tener entre 10 y 500 caracteres"]
          else []
      | None => []
      end
   ++ match d_price body with
      | Some p =>
          if Qlt_bool p 0 then ["El precio debe ser un número positivo"]
          else []
      | None => []
      end
   ++ stockErrors (d_stock body)
   ++ match d_category body with
      | Some c =>
          if negb (includes validCategories c) then
            [("Categoría inválida. Opciones: "
              ++ Js.join ", " validCategories)%string]
          else []
      | None => []
      end)%list.

(** [validateProductUpdate(req, res, next)]. *)
Definition validateProductUpdate (body : productData) : result unit :=
  match updateErrors body with
  | [] => Ok tt
  | errors => throwApi 400 (Js.join "; " errors)
  end.

End Validator.

(* ------------------------------------------------------------------ *)
(** ** utils/ApiResponse.js and middlewares/errorHandlers.js *)

(** What is written to the client: [res.status(status).json(body)]. *)
Record Response (A : Type) : Type := {
  status : Z;
  success : bool;
  message : string;
  data : option A
}.

Module ApiResponse.

Record t (A : Type) : Type := {
  r_success : bool;
  r_statusCode : Z;
  r_message : string;
  r_data : option A
}.

Definition make {A : Type} (statusCode : Z) (data : option A)
           (message : string) : t A :=
  {| r_success := statusCode <? 400; r_statusCode := statusCode;
     r_message := message; r_data := data |}.

Definition send {A : Type} (r : t A) : Response A :=
  {| status := r_statusCode r; success := r_success r;
     message := r_message r; data := r_data r |}.

Definition success {A : Type} (data : A) (message : string) : t A :=
  make 200 (Some data) message.

Definition created {A : Type} (data : A) (message : string) : t A :=
  make 201 (Some data) message.

End ApiResponse.

Module ErrorHandlers.

(** [handleMongooseError(err)]. *)
Definition handleMongooseError (err : error) : error :=
  match err with
  | MongooseValidationError messages =>
      ApiErr (ApiError.make 400 (Js.join "; " messages))
  | _ => err
  end.

Definition orDefault (msg : string) : string :=
  if String.eqb msg EmptyString then "Error interno del servidor" else msg.

(** [errorHandler(err, req, res, next)]: an error that is not an
    [ApiError] and has no [statusCode] is answered with 500. *)
Definition errorHandler {A : Type} (err : error) : Response A :=
  let e :=
    match handleMongooseError err with
    | ApiErr a => a
    | MongooseValidationError messages =>
        ApiError.make 400 (Js.join "; " messages)
    | JsSyntaxError msg => ApiError.make 500 (orDefault msg)
    | MongoServerError msg => ApiError.make 500 (orDefault msg)
    end in
  {| status := ApiError.statusCode e; success := false;
     message := ApiError.message e; data := None |}.

End ErrorHandlers.

(* ------------------------------------------------------------------ *)
(** ** product.controller.js and product.route.js *)

Module ProductController.

(** The body shared by the handlers: [try { ...send(res) } catch (error)
    { next(error) }], the error middleware being next in line.  No
    response is modelled for a run that went [Beyond] the model. *)
Definition respond {A : Type} (run : io A) (ok : A -> ApiResponse.t A)
  : Collection.t -> option (Response A) * Collection.t :=
  fun c =>
    match run c with
    | (Ok a, c') => (Some (ApiResponse.send (ok a)), c')
    | (Throw e, c') => (Some (ErrorHandlers.errorHandler e), c')
    | (Beyond, c') => (None, c')
    end.

(** [createProduct(req, res, next)]. *)
Definition createProduct (body : productData) (now : Z) :=
  respond (ProductService.createProduct body now)
          (fun p => ApiResponse.created p "Producto creado exitosamente").

(** [getStatistics(req, res, next)]. *)
Definition getStatistics :=
  respond ProductService.getStatistics
          (fun s => ApiResponse.success s
                      "Estadísticas obtenidas exitosamente").

(** [getProductById(req, res, next)]. *)
Definition getProductById (id : ObjectId) :=
  respond (ProductService.getProductById id)
          (fun p => ApiResponse.success p "Producto encontrado").

(** [updateProduct(req, res, next)]. *)
Definition updateProduct (id : ObjectId) (body : productData) (now : Z) :=
  respond (ProductService.updateProduct id body now)
          (fun p => ApiResponse.success p
                      "Producto actualizado exitosamente").

(** [deleteProduct(req, res, next)]. *)
Definition deleteProduct (id : ObjectId) (now : Z) :=
  respond (ProductService.deleteProduct id now)
          (fun p => ApiResponse.success p "Producto eliminado exitosamente").

(** [permanentDeleteProduct(req, res, next)]. *)
Definition permanentDeleteProduct (id : ObjectId) :=
  respond (ProductService.permanentDeleteProduct id)
          (fun r => ApiResponse.success r
                      "Producto eliminado permanentemente").

(** [getProductsByCategory(req, res, next)]. *)
Definition getProductsByCategory (cat : string) :=
  respond (ProductService.getProductsByCategory cat)
          (fun l => ApiResponse.success l ("Productos de categoría " ++ cat)).

(** [parseInt(req.query.threshold) || 10]: [NaN] and 0 are falsy. *)
Definition thresholdOf (param : option string) : Z :=
  match param with
  | Some s =>
      match Js.parseInt s with
      | Some n => if n =? 0 then 10 else n
      | None => 10
      end
  | None => 10
  end.

(** [getLowStockProducts(req, res, next)]. *)
Definition getLowStockProducts (param : option string) :=
  let threshold := thresholdOf param in
  respond (ProductService.getLowStockProducts (Some threshold))
          (fun l => ApiResponse.success l
                      ("Productos con stock bajo (≤ "
                       ++ Js.showZ threshold ++ ")")).

End ProductController.

Module Routes.

(** [router.post('/', Validator.validateProductCreate,
    productController.createProduct)]. *)
Definition postProduct (body : productData) (now : Z)
  : Collection.t -> option (Response Product) * Collection.t :=
  fun c =>
    match Validator.validateProductCreate body with
    | Ok _ => ProductController.createProduct body now c
    | Throw e => (Some (ErrorHandlers.errorHandler e), c)
    | Beyond => (None, c)
    end.

End Routes.

(* ------------------------------------------------------------------ *)
(** ** Data of the worked examples *)

(** A stored product for the worked examples. *)
Definition sampleProduct (id : ObjectId) (nm cat : string) (pr : Q)
           (st : Z) (act : bool) (t : Z) : Product :=
  {| _id := id; name := nm;
     description := "A very fine widget indeed";
     price := pr; category := cat; stock := st; isActive := act;
     createdAt := t; updatedAt := t |}.

Definition shelf : Collection.t :=
  [ sampleProduct 1%N "Widget Pro" "electronics" (999 # 100) 5 true 100;
    sampleProduct 2%N "Old Radio" "electronics" (25 # 1) 2 false 200;
    sampleProduct 3%N "Notebook" "books" (3 # 2) 40 true 300 ].

(** A collection of [k] active products, each of 40 units at 1.50; fifteen
    records for the second page of ten, eleven for the statistics. *)
Definition stocked (k : nat) : Collection.t :=
  map (fun i => sampleProduct (N.of_nat i) "Notebook" "books" (3 # 2) 40
                              true (Z.of_nat i))
      (seq 1 k).

Definition fifteen : Collection.t := stocked 15.

Definition eleven : Collection.t := stocked 11.

(** The total inventory value in the words of the specification: the sum
    over all products of price times stock. *)
Definition inventoryValue (c : Collection.t) : Q :=
  fold_right (fun p acc => (price p * inject_Z (stock p) + acc)%Q) 0%Q c.

Definition secondPage : ProductRepository.options :=
  {| ProductRepository.o_page := Some 2;
     ProductRepository.o_limit := Some 10;
     ProductRepository.o_sortBy := None;
     ProductRepository.o_sortOrder := None |}.

(** The page: [limit] records after the first [skip] ones. *)
Definition slice (skip limit : Z) (l : list Product) : list Product :=
  firstn (Z.to_nat limit) (skipn (Z.to_nat skip) l).

(** The create request of the specification's example, and the same
    request under another spelling of the name or another price. *)
Definition request (nm : string) (pr : Q) : productData :=
  {| d_name := Some nm;
     d_description := Some "A very fine widget indeed";
     d_price := Some pr;
     d_category := Some "electronics";
     d_stock := Some 5;
     d_isActive := None |}.

Definition widgetPro : productData := request "Widget Pro" (999 # 100).

(* ------------------------------------------------------------------ *)
(** ** Predicates of the statements *)

(** The store's guarantee on identifiers: no two documents share one. *)
Definition uniqueIds (c : Collection.t) : Prop := NoDup (map _id c).


(** The update that only sets [isActive]. *)
Definition setActive (b : bool) : productData :=
  {| d_name := None; d_description := None; d_price := None;
     d_category := None; d_stock := None; d_isActive := Some b |}.

(** The body [{}]. *)
Definition emptyBody : productData :=
  {| d_name := None; d_description := None; d_price := None;
     d_category := None; d_stock := None; d_isActive := None |}.

(** A create request the schema accepts. *)
Definition lampRequest (nm : string) : productData :=
  {| d_name := Some nm;
     d_description := Some "A very fine widget indeed";
     d_price := Some (1999 # 100);
     d_category := Some "Hogar";
     d_stock := None;
     d_isActive := None |}.

(** The specification's example under another description. *)
Definition describedRequest (descr : string) : productData :=
  {| d_name := Some "Widget Pro";
     d_description := Some descr;
     d_price := Some (999 # 100);
     d_category := Some "electronics";
     d_stock := Some 5;
     d_isActive := None |}.

(** A create request with a category of the schema's list. *)
Definition schemaRequest (nm descr : string) : productData :=
  {| d_name := Some nm;
     d_description := Some descr;
     d_price := Some (999 # 100);
     d_category := Some "Otros";
     d_stock := Some 5;
     d_isActive := None |}.

(** The request for page 0 with limit 10. *)
Definition pageZero : ProductRepository.options :=
  {| ProductRepository.o_page := Some 0;
     ProductRepository.o_limit := Some 10;
     ProductRepository.o_sortBy := None;
     ProductRepository.o_sortOrder := None |}.

(** A collection as the schema lets it be. *)
Definition showroom : Collection.t :=
  [ sampleProduct 1%N "Desk lamp" "Hogar" (1999 # 100) 3 true 100;
    sampleProduct 2%N "Paperback" "Libros" (5 # 1) 0 false 200;
    sampleProduct 3%N "Raincoat" "Ropa" (45 # 1) 12 true 300 ].

(** The products of the page a list request returns, none when the
    request fails. *)
Definition pageOf (filters : Collection.query)
           (sortBy sortOrder : option string) (limit page : Z)
           (c : Collection.t) : list Product :=
  match fst (ProductRepository.findAll filters
               {| ProductRepository.o_page := Some page;
                  ProductRepository.o_limit := Some limit;
                  ProductRepository.o_sortBy := sortBy;
                  ProductRepository.o_sortOrder := sortOrder |} c) with
  | Ok r => ProductRepository.products r
  | _ => []
  end.

(** A response whose status is one of [codes], whose [success] flag says
    whether the status is below 400, and which carries data exactly when
    it is a success. *)
Definition answers {A : Type} (codes : list Z) (r : Response A) : Prop :=
  In (status r) codes
  /\ success r = (status r <? 400)
  /\ (success r = true <-> data r <> None).

(** The sum of the counters of [byCategory]. *)
Definition sumCounts (m : list (string * Z)) : Z :=
  fold_right (fun kv acc => snd kv + acc) 0 m.

(* ------------------------------------------------------------------ *)
(** * Properties *)

(** ** The collection under an update by identifier *)

Section CollectionFacts.

Import Collection.

Variable id : ObjectId.
Variable f : Product -> Product.
Hypothesis f_keeps_id : forall p, _id (f p) = _id p.

Lemma findById_replaceById_same (c : Collection.t) (p : Product) :
  findById id c = Some p ->
  findById id (replaceById id f c) = Some (f p).
Proof.
  unfold findById.
  induction c as [|q c IH]; simpl; [discriminate|].
  destruct (hasId id q) eqn:E; simpl.
  - intros [= <-]. unfold hasId in *. rewrite f_keeps_id, E. reflexivity.
  - rewrite E. exact IH.
Qed.

Lemma findById_replaceById_other (c : Collection.t) (id' : ObjectId) :
  id' <> id ->
  findById id' (replaceById id f c) = findById id' c.
Proof.
  intros Hne. unfold findById.
  induction c as [|q c IH]; simpl; [reflexivity|].
  destruct (hasId id q) eqn:E; simpl.
  - unfold hasId in *. rewrite f_keeps_id.
    apply N.eqb_eq in E. rewrite E.
    destruct (N.eqb id id') eqn:E'; [|reflexivity].
    apply N.eqb_eq in E'. congruence.
  - rewrite IH. reflexivity.
Qed.

Lemma length_replaceById (c : Collection.t) :
  List.length (replaceById id f c) = List.length c.
Proof.
  induction c as [|q c IH]; simpl; [reflexivity|].
  destruct (hasId id q); simpl; congruence.
Qed.

End CollectionFacts.

Lemma apply_keeps_id (u : Collection.update) (now : Z) (p : Product) :
  _id (Collection.apply u now p) = _id p.
Proof. destruct u; reflexivity. Qed.

(** ** Stock adjustment *)

(** C3.  For a product with current stock [s] and a delta [d]: when
    [s + d < 0] the adjustment is rejected (error 400) and the collection,
    hence the product's stock, is left as it was; when [s + d >= 0] the
    adjustment succeeds and the stored product has stock exactly [s + d]. *)
Theorem updateStock_rejects_or_adds
  (c : Collection.t) (id : ObjectId) (p : Product) (d now : Z) :
  Collection.findById id c = Some p ->
  (stock p + d < 0 ->
   exists msg,
     ProductService.updateStock id d now c = (throwApi 400 msg, c))
  /\ (0 <= stock p + d ->
      exists p' c',
        ProductService.updateStock id d now c = (Ok (Some p'), c')
        /\ Collection.findById id c' = Some p'
        /\ stock p' = stock p + d).
Proof.
  intros Hfind. split; intros Hs.
  - eexists. unfold ProductService.updateStock, bind,
      ProductRepository.findById, reads.
    rewrite Hfind.
    replace (stock p + d <? 0) with true by (symmetry; apply Z.ltb_lt; lia).
    reflexivity.
  - exists (Collection.apply (Collection.IncStock d) now p).
    eexists.
    unfold ProductService.updateStock, bind, ProductRepository.findById,
      reads.
    rewrite Hfind.
    replace (stock p + d <? 0) with false
      by (symmetry; apply Z.ltb_ge; lia).
    unfold ProductRepository.updateStock, Collection.findByIdAndUpdate.
    rewrite Hfind. split; [reflexivity|]. split.
    + apply findById_replaceById_same; [apply apply_keeps_id|exact Hfind].
    + reflexivity.
Qed.

Lemma updateStock_rejects_or_adds_witness :
  (exists msg,
     ProductService.updateStock 1%N (-7) 2000 shelf
     = (throwApi 400 msg, shelf))
  /\ (exists p' c',
        ProductService.updateStock 1%N (-3) 2000 shelf = (Ok (Some p'), c')
        /\ Collection.findById 1%N c' = Some p'
        /\ stock p' = 5 + -3).
Proof.
  split.
  - apply (proj1 (@updateStock_rejects_or_adds shelf 1%N
                    (sampleProduct 1%N "Widget Pro" "electronics"
                       (999 # 100) 5 true 100) (-7) 2000 eq_refl)).
    simpl. lia.
  - apply (proj2 (@updateStock_rejects_or_adds shelf 1%N
                    (sampleProduct 1%N "Widget Pro" "electronics"
                       (999 # 100) 5 true 100) (-3) 2000 eq_refl)).
    simpl. lia.
Defined.

(** ** Soft delete *)

(** C8.  Soft-deleting a product whose [isActive] is false fails with an
    error (400) and changes nothing; soft-deleting one whose [isActive] is
    true succeeds, the stored record has [isActive] false, and it is still
    returned by a lookup by identifier. *)
Theorem deleteProduct_inactive_fails_active_flips
  (c : Collection.t) (id : ObjectId) (p : Product) (now : Z) :
  Collection.findById id c = Some p ->
  (isActive p = false ->
   ProductService.deleteProduct id now c
   = (throwApi 400 "El producto ya está inactivo", c))
  /\ (isActive p = true ->
      exists p' c',
        ProductService.deleteProduct id now c = (Ok (Some p'), c')
        /\ isActive p' = false
        /\ ProductService.getProductById id c' = (Ok p', c')).
Proof.
  intros Hfind. split; intros Hact.
  - unfold ProductService.deleteProduct, bind, ProductRepository.findById,
      reads.
    rewrite Hfind, Hact. reflexivity.
  - exists (Collection.apply (Collection.SetIsActive false) now p).
    eexists.
    unfold ProductService.deleteProduct, bind, ProductRepository.findById,
      reads.
    rewrite Hfind, Hact. cbn [negb]. cbv beta iota.
    unfold ProductRepository.softDelete, Collection.findByIdAndUpdate.
    rewrite Hfind. split; [reflexivity|]. split; [reflexivity|].
    unfold ProductService.getProductById, bind, ProductRepository.findById,
      reads.
    rewrite (@findById_replaceById_same id _
               (apply_keeps_id (Collection.SetIsActive false) now) c p Hfind).
    reflexivity.
Qed.

Lemma deleteProduct_inactive_fails_active_flips_witness :
  ProductService.deleteProduct 2%N 2000 shelf
  = (throwApi 400 "El producto ya está inactivo", shelf)
  /\ exists p' c',
       ProductService.deleteProduct 1%N 2000 shelf = (Ok (Some p'), c')
       /\ isActive p' = false
       /\ ProductService.getProductById 1%N c' = (Ok p', c').
Proof.
  split.
  - apply (proj1 (@deleteProduct_inactive_fails_active_flips shelf 2%N
                    (sampleProduct 2%N "Old Radio" "electronics"
                       (25 # 1) 2 false 200) 2000 eq_refl)).
    reflexivity.
  - apply (proj2 (@deleteProduct_inactive_fails_active_flips shelf 1%N
                    (sampleProduct 1%N "Widget Pro" "electronics"
                       (999 # 100) 5 true 100) 2000 eq_refl)).
    reflexivity.
Defined.

(** C10.  A successful soft delete changes only the [isActive] field of
    the record: its name, description, price, category and stock (and its
    identifier) are what they were, and every other record of the
    collection is untouched. *)
Theorem deleteProduct_frame
  (c : Collection.t) (id : ObjectId) (p : Product) (now : Z) :
  Collection.findById id c = Some p ->
  isActive p = true ->
  exists p' c',
    ProductService.deleteProduct id now c = (Ok (Some p'), c')
    /\ Collection.findById id c' = Some p'
    /\ name p' = name p
    /\ description p' = description p
    /\ price p' = price p
    /\ category p' = category p
    /\ stock p' = stock p
    /\ _id p' = _id p
    /\ (forall id', id' <> id ->
                    Collection.findById id' c' = Collection.findById id' c)
    /\ List.length c' = List.length c.
Proof.
  intros Hfind Hact.
  exists (Collection.apply (Collection.SetIsActive false) now p).
  exists (Collection.replaceById id
            (Collection.apply (Collection.SetIsActive false) now) c).
  unfold ProductService.deleteProduct, bind, ProductRepository.findById,
    reads.
  rewrite Hfind, Hact. cbn [negb]. cbv beta iota.
  unfold ProductRepository.softDelete, Collection.findByIdAndUpdate.
  rewrite Hfind.
  repeat split.
  - apply findById_replaceById_same; [apply apply_keeps_id|exact Hfind].
  - intros id' Hne. apply findById_replaceById_other;
      [apply apply_keeps_id|exact Hne].
  - apply length_replaceById.
Qed.

Lemma deleteProduct_frame_witness :
  exists p' c',
    ProductService.deleteProduct 3%N 2000 shelf = (Ok (Some p'), c')
    /\ Collection.findById 3%N c' = Some p'
    /\ name p' = "Notebook"
    /\ description p' = "A very fine widget indeed"
    /\ price p' = 3 # 2
    /\ category p' = "books"
    /\ stock p' = 40
    /\ _id p' = 3%N
    /\ (forall id', id' <> 3%N ->
                    Collection.findById id' c'
                    = Collection.findById id' shelf)
    /\ List.length c' = List.length shelf.
Proof.
  apply (@deleteProduct_frame shelf 3%N
           (sampleProduct 3%N "Notebook" "books" (3 # 2) 40 true 300) 2000).
  - reflexivity.
  - reflexivity.
Defined.

(** ** Category and low-stock lookups *)

(** C9.  The category lookup and the low-stock lookup return exactly the
    active products that match: a product is in the result if and only if
    it is stored, matches the category (resp. has stock at or below the
    threshold) and has [isActive] true.  An inactive product is therefore
    never in either result, whatever its category or stock. *)
Theorem lookups_return_only_active (c : Collection.t) :
  (forall cat,
      exists l,
        ProductRepository.findByCategory cat c = (Ok l, c)
        /\ forall p, In p l <->
                     In p c /\ category p = cat /\ isActive p = true)
  /\ (forall threshold,
         exists l,
           ProductRepository.findLowStock threshold c = (Ok l, c)
           /\ forall p, In p l <->
                        In p c
                        /\ stock p <= ProductRepository.orElse threshold 10
                        /\ isActive p = true).
Proof.
  split.
  - intros cat. eexists. split; [reflexivity|].
    intros p. unfold Collection.find. rewrite filter_In.
    unfold Collection.matches. simpl.
    rewrite !andb_true_r, andb_true_iff, String.eqb_eq.
    destruct (isActive p); simpl; intuition congruence.
  - intros threshold. eexists. split; [reflexivity|].
    intros p. unfold Collection.find. rewrite filter_In.
    unfold Collection.matches. simpl.
    rewrite andb_true_iff, Z.leb_le.
    destruct (isActive p); simpl; intuition congruence.
Qed.

(** ** Listing with pagination *)

Section SortFacts.

Variable le : Product -> Product -> bool.

Lemma insertSorted_perm (x : Product) (l : list Product) :
  Permutation (Collection.insertSorted le x l) (x :: l).
Proof.
  induction l as [|y l IH]; simpl; [apply Permutation_refl|].
  destruct (le x y); [apply Permutation_refl|].
  apply perm_trans with (y :: x :: l);
    [apply perm_skip; exact IH | apply perm_swap].
Qed.

End SortFacts.

Lemma sort_perm (f : string) (dir : Z) (l : list Product) :
  Permutation (Collection.sort f dir l) l.
Proof.
  induction l as [|x l IH]; simpl; [apply perm_nil|].
  eapply perm_trans; [apply insertSorted_perm|].
  apply perm_skip. exact IH.
Qed.

Lemma length_sort (f : string) (dir : Z) (l : list Product) :
  List.length (Collection.sort f dir l) = List.length l.
Proof. apply Permutation_length, sort_perm. Qed.

Lemma length_slice (skip limit : Z) (l : list Product) :
  0 <= skip -> 0 <= limit ->
  Z.of_nat (List.length (slice skip limit l))
  = Z.max 0 (Z.min limit (Z.of_nat (List.length l) - skip)).
Proof.
  intros Hs Hl. unfold slice. rewrite length_firstn, length_skipn. lia.
Qed.

(** C5, as amended.  A list request with page [p] and limit [l], both at
    least 1 (1 and 10 when the request leaves them out), over [n] matching
    records succeeds and returns the matching records in the requested
    sort order without the first [(p-1)*l] of them and cut to at most [l]
    records; it reports the total [n] and
    [hasMore = ((p-1)*l + returned < n)].  With page 2 and limit 10 over
    15 matching records, 5 records are returned and [hasMore] is false. *)
Theorem findAll_pagination
  (c : Collection.t) (filters : Collection.query)
  (opts : ProductRepository.options) (p l : Z) :
  ProductRepository.orElse (ProductRepository.o_page opts) 1 = p ->
  ProductRepository.orElse (ProductRepository.o_limit opts) 10 = l ->
  1 <= p -> 1 <= l ->
  let matching := Collection.find filters c in
  let ordered :=
    Collection.sort
      (ProductRepository.orElse (ProductRepository.o_sortBy opts)
                                "createdAt")
      (if String.eqb
            (ProductRepository.orElse (ProductRepository.o_sortOrder opts)
                                      "desc") "asc"
       then 1 else -1)
      matching in
  let n := Z.of_nat (List.length matching) in
  exists r,
    ProductRepository.findAll filters opts c = (Ok r, c)
    /\ Permutation ordered matching
    /\ ProductRepository.products r
       = firstn (Z.to_nat l) (skipn (Z.to_nat ((p - 1) * l)) ordered)
    /\ ProductRepository.total (ProductRepository.paging r) = n
    /\ ProductRepository.hasMore (ProductRepository.paging r)
       = ((p - 1) * l
          + Z.of_nat (List.length (ProductRepository.products r)) <? n)
    /\ Z.of_nat (List.length (ProductRepository.products r))
       = Z.max 0 (Z.min l (n - (p - 1) * l))
    /\ (p = 2 -> l = 10 -> n = 15 ->
        List.length (ProductRepository.products r) = 5%nat
        /\ ProductRepository.hasMore (ProductRepository.paging r) = false).
Proof.
  intros Hp Hl Hp1 Hl1 matching ordered n.
  assert (Hskip : 0 <= (p - 1) * l) by nia.
  assert (Hlen : Z.of_nat (List.length (slice ((p - 1) * l) l ordered))
                 = Z.max 0 (Z.min l (n - (p - 1) * l))).
  { rewrite length_slice by lia. unfold ordered. rewrite length_sort.
    reflexivity. }
  assert (Hrun : ProductRepository.findAll filters opts c
                 = (Ok {| ProductRepository.products :=
                            slice ((p - 1) * l) l ordered;
                          ProductRepository.paging :=
                            {| ProductRepository.total := n;
                               ProductRepository.page := p;
                               ProductRepository.totalPages :=
                                 ProductRepository.ceilDiv n l;
                               ProductRepository.hasMore :=
                                 ((p - 1) * l
                                  + Z.of_nat
                                      (List.length
                                         (slice ((p - 1) * l) l ordered))
                                  <? n) |} |}, c)).
  { unfold ProductRepository.findAll, bind, reads, ret.
    rewrite Hp, Hl.
    fold matching. fold ordered.
    unfold Collection.skip, Collection.limit.
    replace ((p - 1) * l <? 0) with false by (symmetry; apply Z.ltb_ge; lia).
    replace (l =? 0) with false by (symmetry; apply Z.eqb_neq; lia).
    rewrite Z.abs_eq by lia.
    reflexivity. }
  eexists.
  split; [exact Hrun|]. cbn [ProductRepository.products
                                ProductRepository.paging
                                ProductRepository.total
                                ProductRepository.hasMore].
  split; [apply sort_perm|].
  split; [reflexivity|].
  split; [reflexivity|].
  split; [reflexivity|].
  split; [exact Hlen|].
  intros -> -> Hn. rewrite Hn in *.
  split.
  - apply Nat2Z.inj. rewrite Hlen. reflexivity.
  - rewrite Hlen. reflexivity.
Qed.

Lemma findAll_pagination_witness :
  exists r,
    ProductRepository.findAll Collection.all secondPage fifteen
    = (Ok r, fifteen)
    /\ map _id (ProductRepository.products r) = [5; 4; 3; 2; 1]%N
    /\ ProductRepository.total (ProductRepository.paging r) = 15
    /\ ProductRepository.hasMore (ProductRepository.paging r) = false.
Proof.
  destruct (@findAll_pagination fifteen Collection.all secondPage 2 10
              eq_refl eq_refl ltac:(lia) ltac:(lia))
    as (r & Hrun & _ & Hprod & Htotal & _ & _ & Hpage).
  exists r. split; [exact Hrun|].
  split; [rewrite Hprod; reflexivity|].
  split; [rewrite Htotal; reflexivity|].
  apply Hpage; reflexivity.
Defined.

(** C5, as stated, fails: the list request with page 0 and limit 10 over
    15 matching records has the skip [(0-1)*10 = -10]; the store rejects
    it, so no slice, total or [hasMore] is returned. *)
Lemma findAll_page_zero_is_rejected :
  List.length (Collection.find Collection.all fifteen) = 15%nat
  /\ (ProductRepository.orElse (ProductRepository.o_page pageZero) 1 - 1)
     * ProductRepository.orElse (ProductRepository.o_limit pageZero) 10
     = -10
  /\ ProductRepository.findAll Collection.all pageZero fifteen
     = (Throw (MongoServerError "Skip value must be non-negative"), fifteen)
  /\ ~ (exists r c',
          ProductRepository.findAll Collection.all pageZero fifteen
          = (Ok r, c')).
Proof.
  split; [reflexivity|]. split; [reflexivity|].
  split; [vm_compute; reflexivity|].
  intros (r & c' & H). vm_compute in H. discriminate H.
Qed.

(** ** Name lookups through [RegExp] *)

Module RegExpFacts.

Import Js.

Lemma list_ascii_of_string_app (a b : string) :
  list_ascii_of_string (a ++ b)
  = (list_ascii_of_string a ++ list_ascii_of_string b)%list.
Proof.
  induction a as [|x a IH]; simpl; [reflexivity|]. rewrite IH. reflexivity.
Qed.

(** A character without syntactic meaning is pushed as an atom. *)
Lemma step_literal (st : pstate) (c : ascii) :
  esc st = false ->
  isSyntaxCharacter c = false ->
  step st c = Next (push st (RChr c) TAtom).
Proof.
  intros Hesc Hc. unfold step. rewrite Hesc.
  destruct c as [[] [] [] [] [] [] [] []];
    first [discriminate Hc | reflexivity].
Qed.

(** Compiling literal characters followed by the closing [$]. *)
Lemma run_literals (cs : list ascii) :
  forall st,
    esc st = false ->
    stack st = [] ->
    forallb (fun c => negb (isSyntaxCharacter c)) cs = true ->
    run st (cs ++ ["$"%char])
    = Compiled
        (mkAlt {| alts := alts (cur st);
                  terms := REol :: (rev (map RChr cs) ++ terms (cur st)) |}).
Proof.
  induction cs as [|c cs IH]; intros st Hesc Hstack Hlit.
  - simpl. unfold step. rewrite Hesc. simpl. unfold finish. simpl.
    rewrite Hstack. reflexivity.
  - simpl in Hlit. apply andb_true_iff in Hlit. destruct Hlit as [Hc Hcs].
    apply negb_true_iff in Hc.
    change ((c :: cs) ++ ["$"%char])%list with (c :: (cs ++ ["$"%char]))%list.
    cbn [run]. rewrite (@step_literal st c Hesc Hc).
    rewrite IH by (try reflexivity; assumption).
    simpl. rewrite <- app_assoc. reflexivity.
Qed.

Lemma RegExp_literal (n : string) :
  isLiteral n = true ->
  RegExp ("^" ++ n ++ "$") = Compiled (anchored (list_ascii_of_string n)).
Proof.
  intros Hlit. unfold RegExp.
  rewrite list_ascii_of_string_app. simpl list_ascii_of_string at 1.
  rewrite list_ascii_of_string_app. simpl (list_ascii_of_string "$").
  cbn [app run]. unfold step at 1. cbn.
  rewrite run_literals by (try reflexivity; exact Hlit).
  unfold mkAlt, mkSeq, anchored. cbn [alts terms push cur start fold_left].
  cbn [rev]. rewrite rev_app_distr. cbn [rev app].
  rewrite rev_involutive. reflexivity.
Qed.

Lemma matcher_literals (cs : list ascii) :
  forall b s,
    matcher (fold_right RCat REps (map RChr cs ++ [REol]))
            (fun _ _ => true) b s
    = eqChars cs s.
Proof.
  induction cs as [|x cs IH]; intros b s.
  - destruct s; reflexivity.
  - destruct s as [|c s]; [reflexivity|].
    cbn [map app fold_right matcher eqChars]. rewrite IH. reflexivity.
Qed.

Lemma search_anchored_later (cs s : list ascii) :
  search (anchored cs) false s = false.
Proof.
  induction s as [|c s IH]; [reflexivity|].
  cbn [search]. rewrite IH. reflexivity.
Qed.

Lemma search_anchored (cs s : list ascii) :
  search (anchored cs) true s = eqChars cs s.
Proof.
  destruct s as [|c s]; cbn [search].
  - unfold anchored. cbn [matcher]. rewrite matcher_literals.
    rewrite orb_false_r. reflexivity.
  - rewrite search_anchored_later, orb_false_r.
    unfold anchored. cbn [matcher]. rewrite matcher_literals. reflexivity.
Qed.

Lemma eqChars_eqIgnoreCase (a b : string) :
  eqChars (list_ascii_of_string a) (list_ascii_of_string b)
  = eqIgnoreCase a b.
Proof.
  unfold eqIgnoreCase. revert b.
  induction a as [|x a IH]; intros [|c b]; try reflexivity.
  simpl. unfold chrMatch. rewrite IH.
  destruct (Ascii.eqb (upcase x) (upcase c)); reflexivity.
Qed.

(** [new RegExp(`^${n}$`, 'i').test(s)] is equality up to case when [n]
    is literal. *)
Lemma test_literal (n s : string) :
  test (anchored (list_ascii_of_string n)) s = eqIgnoreCase n s.
Proof.
  unfold test. rewrite search_anchored. apply eqChars_eqIgnoreCase.
Qed.

End RegExpFacts.

Lemma existsByName_literal
      (n : string) (c : Collection.t) :
  Js.isLiteral n = true ->
  ProductRepository.existsByName (Some n) None c
  = (Ok (existsb (fun p => Js.eqIgnoreCase n (name p)) c), c).
Proof.
  intros Hlit. unfold ProductRepository.existsByName.
  cbn [ProductRepository.template ProductRepository.orElse].
  rewrite (@RegExpFacts.RegExp_literal n Hlit).
  unfold bind, reads, ret. f_equal. f_equal.
  unfold Collection.findOne.
  induction c as [|p c IH]; [reflexivity|].
  cbn [find existsb]. unfold Collection.matches at 1.
  cbn [Collection.q_name Collection.q_id_ne Collection.q_category
       Collection.q_isActive Collection.q_stock_lte Collection.holds].
  rewrite RegExpFacts.test_literal, !andb_true_r.
  destruct (Js.eqIgnoreCase n (name p)); [reflexivity|exact IH].
Qed.

(** ** Creating a product under a name already taken *)

(** C1, as amended.  A create request whose name is free of
    pattern-syntax characters and equals, ignoring case, the name of a
    stored product fails: the service throws the [ApiError] 400 "Ya existe
    un producto con ese nombre", nothing is written, and the response to
    the POST has status 400. *)
Theorem createProduct_duplicate_name_is_rejected_400
  (c : Collection.t) (d : productData) (n : string) (p : Product)
  (now : Z) :
  d_name d = Some n ->
  Js.isLiteral n = true ->
  In p c ->
  Js.eqIgnoreCase n (name p) = true ->
  ProductService.createProduct d now c
  = (throwApi 400 "Ya existe un producto con ese nombre", c)
  /\ exists r : Response Product,
       Routes.postProduct d now c = (Some r, c)
       /\ status r = 400 /\ success r = false.
Proof.
  intros Hname Hlit Hin Heq.
  assert (Hrun : ProductService.createProduct d now c
                 = (throwApi 400 "Ya existe un producto con ese nombre", c)).
  { unfold ProductService.createProduct, bind.
    rewrite Hname, (@existsByName_literal n c Hlit).
    replace (existsb (fun q => Js.eqIgnoreCase n (name q)) c) with true.
    - reflexivity.
    - symmetry. apply existsb_exists. exists p. split; assumption. }
  split; [exact Hrun|].
  unfold Routes.postProduct, Validator.validateProductCreate.
  destruct (Validator.createErrors d) as [|e es].
  - unfold ProductController.createProduct, ProductController.respond.
    rewrite Hrun. eexists. split; [reflexivity|]. split; reflexivity.
  - eexists. split; [reflexivity|]. split; reflexivity.
Qed.

Lemma createProduct_duplicate_name_is_rejected_400_witness :
  ProductService.createProduct (request "widget pro" (999 # 100)) 2000 shelf
  = (throwApi 400 "Ya existe un producto con ese nombre", shelf)
  /\ exists r : Response Product,
       Routes.postProduct (request "widget pro" (999 # 100)) 2000 shelf
       = (Some r, shelf)
       /\ status r = 400 /\ success r = false.
Proof.
  apply (@createProduct_duplicate_name_is_rejected_400
           shelf (request "widget pro" (999 # 100)) "widget pro"
           (sampleProduct 1%N "Widget Pro" "electronics"
                          (999 # 100) 5 true 100) 2000).
  - reflexivity.
  - reflexivity.
  - simpl. left. reflexivity.
  - reflexivity.
Defined.

(** C1, as stated, fails: "widget pro" duplicates the stored "Widget Pro"
    ignoring case, and the create is refused with status 400, not with a
    conflict error 409. *)
Lemma duplicate_name_error_is_not_409 :
  Js.eqIgnoreCase "widget pro" "Widget Pro" = true
  /\ In (sampleProduct 1%N "Widget Pro" "electronics" (999 # 100) 5 true 100)
        shelf
  /\ ProductService.createProduct
       (request "widget pro" (999 # 100)) 2000 shelf
     = (throwApi 400 "Ya existe un producto con ese nombre", shelf)
  /\ option_map (@status Product)
       (fst (Routes.postProduct (request "widget pro" (999 # 100)) 2000 shelf))
     = Some 400
  /\ ~ (exists msg,
          fst (ProductService.createProduct
                 (request "widget pro" (999 # 100)) 2000 shelf)
          = throwApi 409 msg).
Proof.
  split; [reflexivity|].
  split; [simpl; left; reflexivity|].
  split; [vm_compute; reflexivity|].
  split; [vm_compute; reflexivity|].
  intros [msg H]. vm_compute in H. discriminate H.
Qed.

(** The name is spliced into the pattern unescaped.  A stored name with
    parentheses is not found again under its own spelling, and a name such
    as "C++" does not compile: the lookup throws a [SyntaxError], which
    the error middleware answers with 500. *)
Example existsByName_misses_parenthesised_name :
  fst (ProductRepository.existsByName
         (Some "Widget (Pro)") None
         [sampleProduct 1%N "Widget (Pro)" "electronics" (999 # 100) 5 true 100])
  = Ok false.
Proof. vm_compute. reflexivity. Qed.

Example existsByName_throws_on_plus_plus :
  fst (ProductRepository.existsByName (Some "C++") None shelf)
  = Throw (JsSyntaxError "Nothing to repeat")
  /\ option_map (@status Product)
       (fst (Routes.postProduct (request "C++" (999 # 100)) 2000 shelf))
     = Some 500.
Proof. split; vm_compute; reflexivity. Qed.

(** ** Creating a product: the validator against the schema *)

Lemma app_nil_inv {A : Type} (l1 l2 : list A) :
  (l1 ++ l2)%list = [] -> l1 = [] /\ l2 = [].
Proof. destruct l1; simpl; [auto | discriminate]. Qed.

(** The categories the request validator lets through are not the ones the
    schema's [enum] lists: a request with no validator error has a schema
    validation error. *)
Lemma validator_accepts_schema_rejects (d : productData) :
  Validator.createErrors d = [] -> ProductModel.validate d <> [].
Proof.
  unfold Validator.createErrors. intros H.
  repeat (apply app_nil_inv in H; destruct H as [_ H]).
  unfold Validator.categoryErrors in H.
  assert (Hbad : ProductModel.validateCategory (d_category d) <> []).
  { destruct (d_category d) as [cat|]; [|discriminate].
    destruct (String.eqb cat EmptyString) eqn:E; [discriminate|].
    destruct (includes Validator.validCategories cat) eqn:Hin;
      [|discriminate].
    unfold includes, Validator.validCategories in Hin. simpl in Hin.
    repeat (apply orb_true_iff in Hin; destruct Hin as [Hin|Hin];
            [apply String.eqb_eq in Hin; subst cat; vm_compute; discriminate|]).
    discriminate. }
  unfold ProductModel.validate. intros Hnil.
  repeat (apply app_nil_inv in Hnil; destruct Hnil as [? Hnil]).
  contradiction.
Qed.

(** Hence no POST creates anything: the collection is left as it was and
    every response written is an error. *)
Lemma postProduct_never_succeeds (d : productData) (now : Z)
      (c : Collection.t) :
  snd (Routes.postProduct d now c) = c
  /\ forall r, fst (Routes.postProduct d now c) = Some r ->
               success r = false.
Proof.
  unfold Routes.postProduct, Validator.validateProductCreate.
  destruct (Validator.createErrors d) as [|e es] eqn:Hv.
  - apply validator_accepts_schema_rejects in Hv.
    unfold ProductController.createProduct, ProductController.respond,
      ProductService.createProduct, bind.
    destruct (ProductRepository.existsByName (d_name d) None c)
      as [[dup|err|] c'] eqn:Hex.
    + assert (c' = c) as ->.
      { unfold ProductRepository.existsByName in Hex.
        destruct (Js.RegExp _); inversion Hex; reflexivity. }
      destruct dup; [split; [reflexivity | intros r [= <-]; reflexivity]|].
      destruct (ProductService.belowMinimum (d_price d));
        [split; [reflexivity | intros r [= <-]; reflexivity]|].
      unfold ProductRepository.create, ProductModel.prepare.
      destruct (ProductModel.validate d); [contradiction|].
      split; [reflexivity | intros r [= <-]; reflexivity].
    + assert (c' = c) as ->.
      { unfold ProductRepository.existsByName in Hex.
        destruct (Js.RegExp _); inversion Hex; reflexivity. }
      split; [reflexivity|].
      intros r [= <-]. destruct err; reflexivity.
    + assert (c' = c) as ->.
      { unfold ProductRepository.existsByName in Hex.
        destruct (Js.RegExp _); inversion Hex; reflexivity. }
      split; [reflexivity | discriminate].
  - split; [reflexivity | intros r [= <-]; reflexivity].
Qed.

(** C2.  What the code does on the specification's example: the request
    passes the validator and the checks of the service, then the schema
    refuses the category "electronics"; the response has status 400, not
    201, and no record is stored. *)
Theorem post_widgetPro_answers_400 (now : Z) :
  Validator.validateProductCreate widgetPro = Ok tt
  /\ ProductRepository.existsByName (d_name widgetPro) None [] = (Ok false, [])
  /\ ProductService.belowMinimum (d_price widgetPro) = false
  /\ ProductModel.validate widgetPro
     = ["electronics no en una categoría válida"]
  /\ Routes.postProduct widgetPro now []
     = (Some {| status := 400; success := false;
                message := "electronics no en una categoría válida";
                data := None |}, []).
Proof. repeat split; vm_compute; reflexivity. Qed.

(** ** The minimum price *)

(** The price rule of the service: a create whose price is below 0.01 is
    refused with an [ApiError] 400 whatever the rest of the request,
    provided the name compiles as a pattern. *)
Lemma createProduct_below_minimum
      (d : productData) (q : Q) (re : Js.regex) (now : Z)
      (c : Collection.t) :
  d_price d = Some q ->
  (q < 1 # 100)%Q ->
  Js.RegExp ("^" ++ ProductRepository.template (d_name d) ++ "$")
  = Js.Compiled re ->
  exists msg, ProductService.createProduct d now c = (throwApi 400 msg, c).
Proof.
  intros Hq Hlt Hre.
  unfold ProductService.createProduct, bind, ProductRepository.existsByName.
  rewrite Hre. unfold bind, reads, ret.
  destruct (ProductRepository.isSome _).
  - eexists. reflexivity.
  - rewrite Hq. unfold ProductService.belowMinimum, Qlt_bool.
    destruct (Qle_bool (1 # 100) q) eqn:E.
    + apply Qle_bool_iff in E. exfalso. apply (Qlt_not_le _ _ Hlt E).
    + eexists. reflexivity.
Qed.

(** The price rule lets 0.01 through: with a record the schema accepts
    (here a category of its [enum]), the service creates the product. *)
Example createProduct_price_one_cent_schema_category :
  exists p,
    ProductService.createProduct
      {| d_name := Some "Widget Pro";
         d_description := Some "A very fine widget indeed";
         d_price := Some (1 # 100);
         d_category := Some "Otros";
         d_stock := Some 5;
         d_isActive := None |} 2000 []
    = (Ok p, [p])
    /\ isActive p = true /\ _id p = 1%N /\ (price p == 1 # 100)%Q.
Proof. eexists. vm_compute. repeat split. Qed.

(** C6.  What the code does on a create request with price 0.00, 0.005
    and 0.01, the other fields being those of the specification's example:
    the first two are refused by the price rule of the service (400); the
    third passes the validator and the price rule, and is then refused by
    the schema for its category (400) instead of succeeding. *)
Theorem post_price_boundary (now : Z) :
  Routes.postProduct (request "Widget Pro" 0) now []
  = (Some {| status := 400; success := false;
             message := "El precio debe ser mayor a $0.01";
             data := None |}, [])
  /\ Routes.postProduct (request "Widget Pro" (5 # 1000)) now []
     = (Some {| status := 400; success := false;
                message := "El precio debe ser mayor a $0.01";
                data := None |}, [])
  /\ Validator.validateProductCreate (request "Widget Pro" (1 # 100)) = Ok tt
  /\ ProductService.belowMinimum (Some (1 # 100)) = false
  /\ Routes.postProduct (request "Widget Pro" (1 # 100)) now []
     = (Some {| status := 400; success := false;
                message := "electronics no en una categoría válida";
                data := None |}, []).
Proof. repeat split; vm_compute; reflexivity. Qed.

(** ** Length bounds: the validator against the schema *)

(** C7.  What the code does on a create request whose name has three
    characters, and on one whose description has ten: the request
    validator accepts both, as the bounds 3 to 100 and 10 to 500 require,
    but the save is refused by the schema, whose [minlength] is 6 for the
    name and 20 for the description, under messages that ask for at least
    3 and at least 10 characters.  The service throws the validation
    error and stores nothing; the POST is answered 400. *)
Theorem create_at_lower_length_bound_is_refused (now : Z) :
  Js.utf16Length "Pen" = 3%nat
  /\ Js.utf16Length "Ten chars!" = 10%nat
  /\ Validator.validateProductCreate (request "Pen" (999 # 100)) = Ok tt
  /\ Validator.validateProductCreate (describedRequest "Ten chars!") = Ok tt
  /\ ProductService.createProduct
       (schemaRequest "Pen" "A very fine widget indeed") now []
     = (Throw (MongooseValidationError
                 ["El nombre del producto debe tener al menos 3 caracteres"]),
        [])
  /\ ProductService.createProduct
       (schemaRequest "Widget Pro" "Ten chars!") now []
     = (Throw (MongooseValidationError
                 ["La descripción del producto debe tener al menos 10 caracteres"]),
        [])
  /\ Routes.postProduct (request "Pen" (999 # 100)) now []
     = (Some {| status := 400; success := false;
                message :=
                  "El nombre del producto debe tener al menos 3 caracteres; electronics no en una categoría válida";
                data := None |}, [])
  /\ Routes.postProduct (describedRequest "Ten chars!") now []
     = (Some {| status := 400; success := false;
                message :=
                  "La descripción del producto debe tener al menos 10 caracteres; electronics no en una categoría válida";
                data := None |}, []).
Proof. repeat split; vm_compute; reflexivity. Qed.

(** The request validator treats a name of white space only as absent,
    whatever its length. *)
Example blank_name_of_length_three_is_rejected :
  Js.utf16Length "   " = 3%nat
  /\ Validator.validateProductCreate (request "   " (999 # 100))
     = throwApi 400 "El nombre es obligatorio".
Proof. split; vm_compute; reflexivity. Qed.

(** ** Statistics *)

Lemma find_all (c : Collection.t) : Collection.find Collection.all c = c.
Proof.
  unfold Collection.find. induction c as [|p c IH]; [reflexivity|].
  simpl. rewrite IH. reflexivity.
Qed.

Lemma count_perm (f : Product -> bool) (l l' : list Product) :
  Permutation l l' -> ProductService.count f l = ProductService.count f l'.
Proof.
  intros H. unfold ProductService.count. f_equal.
  induction H; simpl.
  - reflexivity.
  - destruct (f x); simpl; congruence.
  - destruct (f x), (f y); reflexivity.
  - congruence.
Qed.

Lemma inventoryValue_perm (l l' : list Product) :
  Permutation l l' -> (inventoryValue l == inventoryValue l')%Q.
Proof.
  intros H. induction H; simpl.
  - reflexivity.
  - rewrite IHPermutation. reflexivity.
  - ring.
  - rewrite IHPermutation1. exact IHPermutation2.
Qed.

(** The accumulation of [reduce] against the sum. *)
Lemma reduce_inventoryValue (l : list Product) :
  forall a : Q,
    (fold_left (fun sum p => sum + price p * inject_Z (stock p)) l a
     == a + inventoryValue l)%Q.
Proof.
  induction l as [|p l IH]; intros a; simpl.
  - ring.
  - rewrite IH. ring.
Qed.

(** What [getStatistics] computes: the total is the count of all the
    products, the other figures are taken over the page that [findAll()]
    returns under its default options, the ten most recent products. *)
Lemma getStatistics_first_page (c : Collection.t) :
  let firstPage := firstn 10 (Collection.sort "createdAt" (-1) c) in
  exists s,
    ProductService.getStatistics c = (Ok s, c)
    /\ ProductService.totalProducts s = Z.of_nat (List.length c)
    /\ ProductService.activeProducts s
       = ProductService.count isActive firstPage
    /\ ProductService.inactiveProducts s
       = ProductService.count (fun p => negb (isActive p)) firstPage
    /\ (ProductService.totalInventoryValue s == inventoryValue firstPage)%Q.
Proof.
  intros firstPage. eexists.
  unfold ProductService.getStatistics, bind, ProductRepository.findAll,
    ProductRepository.findLowStock, bind, reads, ret.
  cbn [ProductRepository.noOptions ProductRepository.o_page
       ProductRepository.o_limit ProductRepository.o_sortBy
       ProductRepository.o_sortOrder ProductRepository.orElse].
  rewrite find_all. unfold Collection.countDocuments. rewrite find_all.
  change ((1 - 1) * 10) with 0.
  change (Collection.skip 0 (Collection.sort "createdAt"
            (if String.eqb "desc" "asc" then 1 else -1) c))
    with (Ok (Collection.sort "createdAt" (-1) c)
          : result (list Product)).
  cbv beta iota.
  change (Collection.limit 10 (Collection.sort "createdAt" (-1) c))
    with firstPage.
  split; [reflexivity|].
  cbn [ProductService.totalProducts ProductService.activeProducts
       ProductService.inactiveProducts ProductService.totalInventoryValue
       ProductRepository.total ProductRepository.paging
       ProductRepository.products].
  repeat split.
  rewrite reduce_inventoryValue. ring.
Qed.

(** On a collection of at most ten products the figures are those of the
    whole collection. *)
Lemma getStatistics_small_collection (c : Collection.t) :
  (List.length c <= 10)%nat ->
  exists s,
    ProductService.getStatistics c = (Ok s, c)
    /\ ProductService.totalProducts s = Z.of_nat (List.length c)
    /\ ProductService.activeProducts s = ProductService.count isActive c
    /\ ProductService.inactiveProducts s
       = ProductService.count (fun p => negb (isActive p)) c
    /\ (ProductService.totalInventoryValue s == inventoryValue c)%Q.
Proof.
  intros Hlen.
  destruct (getStatistics_first_page c) as (s & Hrun & Ht & Ha & Hi & Hv).
  assert (Hperm : Permutation
                    (firstn 10 (Collection.sort "createdAt" (-1) c)) c).
  { rewrite firstn_all2 by (rewrite length_sort; exact Hlen).
    apply sort_perm. }
  exists s. split; [exact Hrun|]. split; [exact Ht|].
  split; [rewrite Ha; apply count_perm; exact Hperm|].
  split; [rewrite Hi; apply count_perm; exact Hperm|].
  rewrite Hv. apply inventoryValue_perm. exact Hperm.
Qed.

(** C4.  What the code does on a collection of eleven active products of
    60.00 in stock each: it reports 11 products in total but only 10
    active ones and an inventory value of 600, where the collection holds
    11 active products worth 660. *)
Theorem getStatistics_eleven_products :
  exists s,
    ProductService.getStatistics eleven = (Ok s, eleven)
    /\ ProductService.totalProducts s = 11
    /\ ProductService.activeProducts s = 10
    /\ ProductService.inactiveProducts s = 0
    /\ (ProductService.totalInventoryValue s == 600)%Q
    /\ ProductService.count isActive eleven = 11
    /\ (inventoryValue eleven == 660)%Q.
Proof.
  eexists. split; [vm_compute; reflexivity|].
  repeat split; vm_compute; reflexivity.
Qed.

Lemma lookups_return_only_active_witness :
  (exists l,
      ProductRepository.findByCategory "electronics" shelf = (Ok l, shelf)
      /\ ~ In (sampleProduct 2%N "Old Radio" "electronics" (25 # 1) 2
                             false 200) l)
  /\ (exists l,
         ProductRepository.findLowStock None shelf = (Ok l, shelf)
         /\ ~ In (sampleProduct 2%N "Old Radio" "electronics" (25 # 1) 2
                                false 200) l).
Proof.
  destruct (lookups_return_only_active shelf) as [Hcat Hlow]. split.
  - destruct (Hcat "electronics") as (l & Hrun & Hl).
    exists l. split; [exact Hrun|].
    intros Hin. apply Hl in Hin. destruct Hin as (_ & _ & Hact).
    discriminate Hact.
  - destruct (Hlow None) as (l & Hrun & Hl).
    exists l. split; [exact Hrun|].
    intros Hin. apply Hl in Hin. destruct Hin as (_ & _ & Hact).
    discriminate Hact.
Defined.

(* ------------------------------------------------------------------ *)
(** * Further properties of the code *)

(** ** Removal by identifier *)

Lemma findById_none_iff (id : ObjectId) (c : Collection.t) :
  Collection.findById id c = None <-> ~ In id (map _id c).
Proof.
  unfold Collection.findById, Collection.hasId.
  induction c as [|q c IH]; simpl.
  - split; [intros _ []|reflexivity].
  - destruct (N.eqb (_id q) id) eqn:E.
    + apply N.eqb_eq in E. split; [discriminate|]. intros H. exfalso.
      apply H. left. exact E.
    + apply N.eqb_neq in E. rewrite IH. split.
      * intros H [H'|H']; [exact (E H') | exact (H H')].
      * intros H H'. apply H. right. exact H'.
Qed.

Lemma findById_removeById_same (id : ObjectId) (c : Collection.t) :
  uniqueIds c ->
  Collection.findById id (Collection.removeById id c) = None.
Proof.
  unfold uniqueIds. induction c as [|q c IH]; simpl; intros Hnd.
  - reflexivity.
  - inversion Hnd as [|x l Hnotin Hnd']; subst.
    destruct (Collection.hasId id q) eqn:E.
    + unfold Collection.hasId in E. apply N.eqb_eq in E. subst id.
      apply findById_none_iff. exact Hnotin.
    + unfold Collection.findById. simpl. rewrite E. apply IH. exact Hnd'.
Qed.

Lemma findById_removeById_other (id id' : ObjectId) (c : Collection.t) :
  id' <> id ->
  Collection.findById id' (Collection.removeById id c)
  = Collection.findById id' c.
Proof.
  intros Hne. unfold Collection.findById.
  induction c as [|q c IH]; simpl; [reflexivity|].
  destruct (Collection.hasId id q) eqn:E; simpl.
  - unfold Collection.hasId in *. apply N.eqb_eq in E.
    replace (N.eqb (_id q) id') with false; [reflexivity|].
    symmetry. apply N.eqb_neq. congruence.
  - rewrite IH. reflexivity.
Qed.

Lemma length_removeById (id : ObjectId) (c : Collection.t) (p : Product) :
  Collection.findById id c = Some p ->
  S (List.length (Collection.removeById id c)) = List.length c.
Proof.
  unfold Collection.findById.
  induction c as [|q c IH]; simpl; [discriminate|].
  destruct (Collection.hasId id q); simpl; [reflexivity|].
  intros H. rewrite (IH H). reflexivity.
Qed.

Lemma In_removeById (id : ObjectId) (c : Collection.t) (x : Product) :
  In x (Collection.removeById id c) -> In x c.
Proof.
  induction c as [|q c IH]; simpl; [tauto|].
  destruct (Collection.hasId id q); simpl; [tauto|].
  intros [H|H]; [left; exact H | right; exact (IH H)].
Qed.

Lemma uniqueIds_removeById (id : ObjectId) (c : Collection.t) :
  uniqueIds c -> uniqueIds (Collection.removeById id c).
Proof.
  unfold uniqueIds. induction c as [|q c IH]; simpl; intros Hnd.
  - exact Hnd.
  - inversion Hnd as [|x l Hnotin Hnd']; subst.
    destruct (Collection.hasId id q); [exact Hnd'|].
    simpl. constructor; [|exact (IH Hnd')].
    intros Hin. apply Hnotin. apply in_map_iff in Hin.
    destruct Hin as (y & Hy & Hin). apply in_map_iff. exists y.
    split; [exact Hy | exact (In_removeById _ _ _ Hin)].
Qed.

(** X1.  Hard delete.  When identifiers are unique, permanently deleting
    a stored product succeeds and removes exactly that record: a later
    lookup of the identifier is answered "not found" (404), every other
    identifier resolves as before, and the collection has one record
    less. *)
Theorem permanentDeleteProduct_removes_record
  (c : Collection.t) (id : ObjectId) (p : Product) :
  uniqueIds c ->
  Collection.findById id c = Some p ->
  exists c',
    ProductService.permanentDeleteProduct id c
    = (Ok "Producto eliminado permanentemente", c')
    /\ ProductService.getProductById id c'
       = (throwApi 404 "Producto no encontrado", c')
    /\ (forall id', id' <> id ->
                    Collection.findById id' c' = Collection.findById id' c)
    /\ S (List.length c') = List.length c
    /\ uniqueIds c'.
Proof.
  intros Hu Hfind. exists (Collection.removeById id c).
  split.
  - unfold ProductService.permanentDeleteProduct, bind,
      ProductRepository.findById, reads, ProductRepository.hardDelete,
      Collection.findByIdAndDelete, ret.
    rewrite Hfind. reflexivity.
  - split.
    + unfold ProductService.getProductById, bind,
        ProductRepository.findById, reads.
      rewrite (findById_removeById_same id Hu). reflexivity.
    + split; [intros id' Hne; apply findById_removeById_other; exact Hne|].
      split; [exact (length_removeById id c Hfind)|].
      apply uniqueIds_removeById. exact Hu.
Qed.

Lemma permanentDeleteProduct_removes_record_witness :
  exists c',
    ProductService.permanentDeleteProduct 2%N shelf
    = (Ok "Producto eliminado permanentemente", c')
    /\ ProductService.getProductById 2%N c'
       = (throwApi 404 "Producto no encontrado", c')
    /\ (forall id', id' <> 2%N ->
                    Collection.findById id' c'
                    = Collection.findById id' shelf)
    /\ S (List.length c') = List.length shelf
    /\ uniqueIds c'.
Proof.
  apply (@permanentDeleteProduct_removes_record shelf 2%N
           (sampleProduct 2%N "Old Radio" "electronics" (25 # 1) 2
                          false 200)).
  - unfold uniqueIds, shelf. simpl.
    repeat constructor; simpl; intuition discriminate.
  - reflexivity.
Defined.

(** ** Operations on an identifier that is not stored *)

(** X2.  Every operation addressed to an identifier no stored product has
    fails with "Producto no encontrado", status 404, and leaves the
    collection as it was: lookup, update, soft delete, hard delete and
    stock adjustment. *)
Theorem unknown_id_is_answered_404
  (c : Collection.t) (id : ObjectId) (now : Z) :
  Collection.findById id c = None ->
  ProductController.getProductById id c
  = (Some {| status := 404; success := false;
             message := "Producto no encontrado"; data := None |}, c)
  /\ (forall u,
         ProductController.updateProduct id u now c
         = (Some {| status := 404; success := false;
                    message := "Producto no encontrado"; data := None |}, c))
  /\ ProductController.deleteProduct id now c
     = (Some {| status := 404; success := false;
                message := "Producto no encontrado"; data := None |}, c)
  /\ ProductController.permanentDeleteProduct id c
     = (Some {| status := 404; success := false;
                message := "Producto no encontrado"; data := None |}, c)
  /\ (forall q,
         ProductService.updateStock id q now c
         = (throwApi 404 "Producto no encontrado", c)).
Proof.
  intros Hnone.
  unfold ProductController.getProductById, ProductController.updateProduct,
    ProductController.deleteProduct,
    ProductController.permanentDeleteProduct, ProductController.respond,
    ProductService.getProductById, ProductService.updateProduct,
    ProductService.deleteProduct, ProductService.permanentDeleteProduct,
    ProductService.updateStock, bind, ProductRepository.findById, reads.
  rewrite Hnone. repeat split.
Qed.

Lemma unknown_id_is_answered_404_witness :
  ProductController.getProductById 9%N shelf
  = (Some {| status := 404; success := false;
             message := "Producto no encontrado"; data := None |}, shelf)
  /\ ProductController.deleteProduct 9%N 2000 shelf
     = (Some {| status := 404; success := false;
                message := "Producto no encontrado"; data := None |}, shelf).
Proof.
  destruct (@unknown_id_is_answered_404 shelf 9%N 2000 eq_refl)
    as (Hget & _ & Hdel & _).
  split; [exact Hget | exact Hdel].
Defined.

(** ** Failed writes *)

Lemma existsByName_reads
      (n : option string) (e : option ObjectId) (c : Collection.t) :
  snd (ProductRepository.existsByName n e c) = c.
Proof.
  unfold ProductRepository.existsByName.
  destruct (Js.RegExp _); reflexivity.
Qed.

(** X3.  A write of the service either returns a value or leaves the
    collection exactly as it was: a create, update, soft delete, hard
    delete or stock adjustment that fails has written nothing. *)
Theorem failed_write_changes_nothing (c : Collection.t) (now : Z) :
  (forall d,
      snd (ProductService.createProduct d now c) = c
      \/ exists p, fst (ProductService.createProduct d now c) = Ok p)
  /\ (forall id u,
         snd (ProductService.updateProduct id u now c) = c
         \/ exists p, fst (ProductService.updateProduct id u now c) = Ok p)
  /\ (forall id,
         snd (ProductService.deleteProduct id now c) = c
         \/ exists p, fst (ProductService.deleteProduct id now c) = Ok p)
  /\ (forall id,
         snd (ProductService.permanentDeleteProduct id c) = c
         \/ exists m, fst (ProductService.permanentDeleteProduct id c) = Ok m)
  /\ (forall id q,
         snd (ProductService.updateStock id q now c) = c
         \/ exists p, fst (ProductService.updateStock id q now c) = Ok p).
Proof.
  repeat split.
  - intros d. unfold ProductService.createProduct, bind.
    pose proof (existsByName_reads (d_name d) None c) as Hc.
    destruct (ProductRepository.existsByName (d_name d) None c)
      as [[dup|e|] c0]; simpl in Hc; subst c0; [|left; reflexivity..].
    destruct dup; [left; reflexivity|].
    destruct (ProductService.belowMinimum (d_price d)); [left; reflexivity|].
    unfold ProductRepository.create.
    destruct (ProductModel.prepare d (Collection.freshId c) now);
      [right; eexists; reflexivity | left; reflexivity..].
  - intros id u. unfold ProductService.updateProduct, bind,
      ProductRepository.findById, reads.
    destruct (Collection.findById id c) as [p|]; [|left; reflexivity].
    destruct (ProductService.renames u p).
    + pose proof (existsByName_reads (d_name u) (Some id) c) as Hc.
      destruct (ProductRepository.existsByName (d_name u) (Some id) c)
        as [[dup|e|] c0]; simpl in Hc; subst c0; [|left; reflexivity..].
      destruct dup; [left; reflexivity|].
      destruct (ProductService.belowMinimum (d_price u));
        [left; reflexivity|].
      unfold ProductRepository.update.
      destruct (ProductModel.validateUpdate u); [|left; reflexivity].
      destruct (Collection.findByIdAndSet id u now c).
      right; eexists; reflexivity.
    + unfold ret.
      destruct (ProductService.belowMinimum (d_price u));
        [left; reflexivity|].
      unfold ProductRepository.update.
      destruct (ProductModel.validateUpdate u); [|left; reflexivity].
      destruct (Collection.findByIdAndSet id u now c).
      right; eexists; reflexivity.
  - intros id. unfold ProductService.deleteProduct, bind,
      ProductRepository.findById, reads.
    destruct (Collection.findById id c) as [p|]; [|left; reflexivity].
    destruct (negb (isActive p)); [left; reflexivity|].
    unfold ProductRepository.softDelete.
    destruct (Collection.findByIdAndUpdate id _ now c).
    right; eexists; reflexivity.
  - intros id. unfold ProductService.permanentDeleteProduct, bind,
      ProductRepository.findById, reads.
    destruct (Collection.findById id c) as [p|]; [|left; reflexivity].
    right; eexists; reflexivity.
  - intros id q. unfold ProductService.updateStock, bind,
      ProductRepository.findById, reads.
    destruct (Collection.findById id c) as [p|]; [|left; reflexivity].
    destruct (stock p + q <? 0); [left; reflexivity|].
    unfold ProductRepository.updateStock.
    destruct (Collection.findByIdAndUpdate id _ now c).
    right; eexists; reflexivity.
Qed.

(** ** Creating a product *)

Lemma freshId_above (c : Collection.t) (q : Product) :
  In q c -> (_id q < Collection.freshId c)%N.
Proof.
  unfold Collection.freshId. induction c as [|x c IH]; simpl; [tauto|].
  intros [->|Hin]; [lia|]. specialize (IH Hin). lia.
Qed.

Lemma freshId_is_fresh (c : Collection.t) :
  ~ In (Collection.freshId c) (map _id c).
Proof.
  intros Hin. apply in_map_iff in Hin. destruct Hin as (q & Hq & Hin).
  apply freshId_above in Hin. lia.
Qed.


Lemma findById_insert_other (c : Collection.t) (p : Product)
      (id : ObjectId) :
  id <> _id p ->
  Collection.findById id (Collection.insert p c) = Collection.findById id c.
Proof.
  intros Hne. unfold Collection.findById, Collection.insert.
  induction c as [|x c IH]; simpl.
  - unfold Collection.hasId.
    replace (N.eqb (_id p) id) with false; [reflexivity|].
    symmetry. apply N.eqb_neq. congruence.
  - destruct (Collection.hasId id x); [reflexivity | exact IH].
Qed.

Lemma uniqueIds_insert (c : Collection.t) (p : Product) :
  uniqueIds c -> ~ In (_id p) (map _id c) ->
  uniqueIds (Collection.insert p c).
Proof.
  unfold uniqueIds, Collection.insert. intros Hu Hfresh.
  rewrite map_app. simpl.
  apply (Permutation_NoDup (l := _id p :: map _id c)).
  - apply Permutation_cons_append.
  - constructor; assumption.
Qed.















(** The check compares the name as sent with the names as stored: a name
    sent with a leading space is stored trimmed, and sending it again is
    not recognised as a duplicate. *)
Example createProduct_twice_with_leading_space :
  exists p q,
    ProductService.createProduct (lampRequest " Desk lamp") 2000 []
    = (Ok p, [p])
    /\ ProductService.createProduct (lampRequest " Desk lamp") 3000 [p]
       = (Ok q, [p; q])
    /\ name p = "Desk lamp" /\ name q = "Desk lamp".
Proof. do 2 eexists. vm_compute. repeat split. Qed.

(** ** What the writes of the service do to the collection *)

Lemma createProduct_cases (c : Collection.t) (d : productData) (now : Z) :
  snd (ProductService.createProduct d now c) = c
  \/ exists p,
       ProductModel.prepare d (Collection.freshId c) now = Ok p
       /\ ProductService.belowMinimum (d_price d) = false
       /\ snd (ProductService.createProduct d now c) = Collection.insert p c.
Proof.
  unfold ProductService.createProduct, bind.
  pose proof (existsByName_reads (d_name d) None c) as Hc.
  destruct (ProductRepository.existsByName (d_name d) None c)
    as [[dup|e|] c0]; simpl in Hc; subst c0; [|left; reflexivity..].
  destruct dup; [left; reflexivity|].
  destruct (ProductService.belowMinimum (d_price d)) eqn:Hmin;
    [left; reflexivity|].
  unfold ProductRepository.create.
  destruct (ProductModel.prepare d (Collection.freshId c) now) as [p|e|];
    [|left; reflexivity..].
  right. exists p. repeat split.
Qed.

Lemma updateProduct_cases
      (c : Collection.t) (id : ObjectId) (u : productData) (now : Z) :
  snd (ProductService.updateProduct id u now c) = c
  \/ exists p,
       Collection.findById id c = Some p
       /\ ProductModel.validateUpdate u = []
       /\ ProductService.belowMinimum (d_price u) = false
       /\ ProductService.updateProduct id u now c
          = (Ok (Some (applyData u now p)),
             Collection.replaceById id (applyData u now) c).
Proof.
  unfold ProductService.updateProduct, bind, ProductRepository.findById,
    reads.
  destruct (Collection.findById id c) as [p|] eqn:Hfind; [|left; reflexivity].
  assert (Htail :
            (if ProductService.belowMinimum (d_price u)
             then throw 400 "El precio debe ser mayor a $0.01"
             else ProductRepository.update id u now) c
            = (if ProductService.belowMinimum (d_price u)
               then (throwApi 400 "El precio debe ser mayor a $0.01", c)
               else match ProductModel.validateUpdate u with
                    | [] => (Ok (Some (applyData u now p)),
                             Collection.replaceById id (applyData u now) c)
                    | msgs => (Throw (MongooseValidationError msgs), c)
                    end)).
  { destruct (ProductService.belowMinimum (d_price u)); [reflexivity|].
    unfold ProductRepository.update, Collection.findByIdAndSet.
    rewrite Hfind. destruct (ProductModel.validateUpdate u); reflexivity. }
  assert (Hgoal :
            forall r,
              r = (if ProductService.belowMinimum (d_price u)
                   then (throwApi 400 "El precio debe ser mayor a $0.01", c)
                   else match ProductModel.validateUpdate u with
                        | [] => (Ok (Some (applyData u now p)),
                                 Collection.replaceById id
                                   (applyData u now) c)
                        | msgs => (Throw (MongooseValidationError msgs), c)
                        end) ->
              snd r = c
              \/ exists p0,
                   Some p = Some p0
                   /\ ProductModel.validateUpdate u = []
                   /\ ProductService.belowMinimum (d_price u) = false
                   /\ r = (Ok (Some (applyData u now p0)),
                           Collection.replaceById id (applyData u now) c)).
  { intros r ->.
    destruct (ProductService.belowMinimum (d_price u)); [left; reflexivity|].
    destruct (ProductModel.validateUpdate u); [|left; reflexivity].
    right. exists p. repeat split. }
  destruct (ProductService.renames u p).
  - pose proof (existsByName_reads (d_name u) (Some id) c) as Hc.
    destruct (ProductRepository.existsByName (d_name u) (Some id) c)
      as [[dup|e|] c0]; simpl in Hc; subst c0; [|left; reflexivity..].
    destruct dup; [left; reflexivity|].
    apply Hgoal. exact Htail.
  - unfold ret. apply Hgoal. exact Htail.
Qed.

Lemma deleteProduct_cases (c : Collection.t) (id : ObjectId) (now : Z) :
  snd (ProductService.deleteProduct id now c) = c
  \/ exists p,
       Collection.findById id c = Some p
       /\ isActive p = true
       /\ ProductService.deleteProduct id now c
          = (Ok (Some (Collection.apply (Collection.SetIsActive false) now p)),
             Collection.replaceById id
               (Collection.apply (Collection.SetIsActive false) now) c).
Proof.
  unfold ProductService.deleteProduct, bind, ProductRepository.findById,
    reads.
  destruct (Collection.findById id c) as [p|] eqn:Hfind; [|left; reflexivity].
  destruct (isActive p) eqn:Hact; [|left; reflexivity].
  right. exists p. split; [reflexivity|]. split; [exact Hact|].
  cbn [negb]. unfold ProductRepository.softDelete,
                Collection.findByIdAndUpdate.
  rewrite Hfind. reflexivity.
Qed.

Lemma updateStock_cases
      (c : Collection.t) (id : ObjectId) (q now : Z) :
  snd (ProductService.updateStock id q now c) = c
  \/ exists p,
       Collection.findById id c = Some p
       /\ 0 <= stock p + q
       /\ ProductService.updateStock id q now c
          = (Ok (Some (Collection.apply (Collection.IncStock q) now p)),
             Collection.replaceById id
               (Collection.apply (Collection.IncStock q) now) c).
Proof.
  unfold ProductService.updateStock, bind, ProductRepository.findById, reads.
  destruct (Collection.findById id c) as [p|] eqn:Hfind; [|left; reflexivity].
  destruct (stock p + q <? 0) eqn:E; [left; reflexivity|].
  apply Z.ltb_ge in E.
  right. exists p. split; [reflexivity|]. split; [exact E|].
  unfold ProductRepository.updateStock, Collection.findByIdAndUpdate.
  rewrite Hfind. reflexivity.
Qed.

Lemma permanentDeleteProduct_cases (c : Collection.t) (id : ObjectId) :
  snd (ProductService.permanentDeleteProduct id c) = c
  \/ snd (ProductService.permanentDeleteProduct id c)
     = Collection.removeById id c.
Proof.
  unfold ProductService.permanentDeleteProduct, bind,
    ProductRepository.findById, reads.
  destruct (Collection.findById id c); [right|left]; reflexivity.
Qed.







Lemma map_id_replaceById
      (id : ObjectId) (f : Product -> Product) (c : Collection.t) :
  (forall p, _id (f p) = _id p) ->
  map _id (Collection.replaceById id f c) = map _id c.
Proof.
  intros Hf. induction c as [|x c IH]; simpl; [reflexivity|].
  destruct (Collection.hasId id x); simpl; [rewrite Hf|rewrite IH];
    reflexivity.
Qed.

(** X7.  Identifiers stay unique.  If no two stored products share an
    identifier, none do after a create, an update, a soft delete, a hard
    delete or a stock adjustment: no write changes the identifier of a
    stored product, and a create takes an identifier that is not in
    use. *)
Theorem service_keeps_identifiers_unique (c : Collection.t) (now : Z) :
  uniqueIds c ->
  (forall d, uniqueIds (snd (ProductService.createProduct d now c)))
  /\ (forall id u,
         uniqueIds (snd (ProductService.updateProduct id u now c)))
  /\ (forall id, uniqueIds (snd (ProductService.deleteProduct id now c)))
  /\ (forall id, uniqueIds (snd (ProductService.permanentDeleteProduct id c)))
  /\ (forall id q,
         uniqueIds (snd (ProductService.updateStock id q now c))).
Proof.
  intros Hu. repeat split.
  - intros d. destruct (createProduct_cases c d now)
      as [->|(p & Hprep & _ & ->)]; [exact Hu|].
    apply uniqueIds_insert; [exact Hu|].
    unfold ProductModel.prepare in Hprep.
    destruct (ProductModel.validate d); [|discriminate].
    injection Hprep as <-. apply freshId_is_fresh.
  - intros id u. destruct (updateProduct_cases c id u now)
      as [->|(p & _ & _ & _ & ->)]; [exact Hu|].
    unfold uniqueIds. cbn [snd].
    rewrite map_id_replaceById; [exact Hu | reflexivity].
  - intros id. destruct (deleteProduct_cases c id now)
      as [->|(p & _ & _ & ->)]; [exact Hu|].
    unfold uniqueIds. cbn [snd].
    rewrite map_id_replaceById; [exact Hu | apply apply_keeps_id].
  - intros id. destruct (permanentDeleteProduct_cases c id) as [->| ->];
      [exact Hu | apply uniqueIds_removeById; exact Hu].
  - intros id q. destruct (updateStock_cases c id q now)
      as [->|(p & _ & _ & ->)]; [exact Hu|].
    unfold uniqueIds. cbn [snd].
    rewrite map_id_replaceById; [exact Hu | apply apply_keeps_id].
Qed.

Lemma service_keeps_identifiers_unique_witness :
  uniqueIds (snd (ProductService.createProduct
                    (lampRequest "Floor lamp") 2000 showroom))
  /\ uniqueIds (snd (ProductService.permanentDeleteProduct 2%N showroom)).
Proof.
  assert (H : uniqueIds showroom).
  { unfold uniqueIds, showroom. simpl.
    repeat constructor; simpl; intuition discriminate. }
  destruct (@service_keeps_identifiers_unique showroom 2000 H)
    as (Hcreate & _ & _ & Hdel & _).
  split; [apply Hcreate | apply Hdel].
Defined.

(** ** Soft delete, composed *)

(** X8.  Soft delete is not repeatable: after a successful soft delete of
    a product, a second soft delete of the same identifier fails with
    "El producto ya está inactivo" (400) and changes nothing. *)
Theorem deleteProduct_twice_fails
  (c : Collection.t) (id : ObjectId) (p : Product) (now now2 : Z) :
  Collection.findById id c = Some p ->
  isActive p = true ->
  exists p' c',
    ProductService.deleteProduct id now c = (Ok (Some p'), c')
    /\ ProductService.deleteProduct id now2 c'
       = (throwApi 400 "El producto ya está inactivo", c').
Proof.
  intros Hfind Hact.
  destruct (deleteProduct_cases c id now) as [Hsame|(p0 & Hf0 & _ & Hrun)].
  - exfalso. unfold ProductService.deleteProduct, bind,
      ProductRepository.findById, reads in Hsame.
    rewrite Hfind, Hact in Hsame. cbn [negb] in Hsame.
    unfold ProductRepository.softDelete, Collection.findByIdAndUpdate
      in Hsame.
    rewrite Hfind in Hsame. cbn [snd] in Hsame.
    pose proof (@findById_replaceById_same id _
                  (apply_keeps_id (Collection.SetIsActive false) now)
                  c p Hfind) as Hnew.
    rewrite Hsame, Hfind in Hnew. injection Hnew as Hnew.
    rewrite Hnew in Hact. discriminate Hact.
  - rewrite Hfind in Hf0. injection Hf0 as <-.
    do 2 eexists. split; [exact Hrun|].
    unfold ProductService.deleteProduct, bind, ProductRepository.findById,
      reads.
    rewrite (@findById_replaceById_same id _
               (apply_keeps_id (Collection.SetIsActive false) now) c p Hfind).
    reflexivity.
Qed.

Lemma deleteProduct_twice_fails_witness :
  exists p' c',
    ProductService.deleteProduct 3%N 2000 shelf = (Ok (Some p'), c')
    /\ ProductService.deleteProduct 3%N 3000 c'
       = (throwApi 400 "El producto ya está inactivo", c').
Proof.
  apply (@deleteProduct_twice_fails shelf 3%N
           (sampleProduct 3%N "Notebook" "books" (3 # 2) 40 true 300)
           2000 3000).
  - reflexivity.
  - reflexivity.
Defined.

Lemma filter_twice {A : Type} (f g : A -> bool) (l : list A) :
  filter f (filter g l) = filter (fun x => f x && g x) l.
Proof.
  induction l as [|x l IH]; simpl; [reflexivity|].
  destruct (g x); simpl.
  - destruct (f x); simpl; rewrite IH; reflexivity.
  - rewrite andb_false_r. exact IH.
Qed.

Lemma filter_absent_id
      (g : Product -> bool) (id : ObjectId) (c : Collection.t) :
  ~ In id (map _id c) ->
  filter (fun x => negb (Collection.hasId id x) && g x) c = filter g c.
Proof.
  induction c as [|z c IH]; simpl; intros Hnotin; [reflexivity|].
  assert (Hz : Collection.hasId id z = false).
  { unfold Collection.hasId. apply N.eqb_neq. intros H.
    apply Hnotin. left. exact H. }
  rewrite Hz. simpl. rewrite IH; [reflexivity|].
  intros H. apply Hnotin. right. exact H.
Qed.

Lemma filter_replaceById_hidden
      (g : Product -> bool) (id : ObjectId) (f : Product -> Product)
      (c : Collection.t) :
  uniqueIds c ->
  (forall x, g (f x) = false) ->
  filter g (Collection.replaceById id f c)
  = filter (fun x => negb (Collection.hasId id x) && g x) c.
Proof.
  unfold uniqueIds. intros Hu Hg.
  induction c as [|x c IH]; simpl; [reflexivity|].
  inversion Hu as [|y l Hnotin Hu']; subst.
  destruct (Collection.hasId id x) eqn:E; simpl.
  - rewrite Hg. unfold Collection.hasId in E. apply N.eqb_eq in E.
    subst id. symmetry. apply filter_absent_id. exact Hnotin.
  - rewrite (IH Hu'). reflexivity.
Qed.

(** X9.  A soft-deleted product leaves the lookups.  When identifiers are
    unique, after the soft delete of an active product the category lookup
    and the low-stock lookup return what they returned before without the
    product of that identifier, in the same order, and the deleted product
    is not available. *)
Theorem deleteProduct_hides_product_from_lookups
  (c : Collection.t) (id : ObjectId) (p : Product) (now : Z) :
  uniqueIds c ->
  Collection.findById id c = Some p ->
  isActive p = true ->
  exists p' c',
    ProductService.deleteProduct id now c = (Ok (Some p'), c')
    /\ ProductModel.isAvailable p' = false
    /\ (forall cat,
           fst (ProductRepository.findByCategory cat c')
           = Ok (filter (fun x => negb (Collection.hasId id x))
                        (Collection.find
                           {| Collection.q_name := None;
                              Collection.q_id_ne := None;
                              Collection.q_category := Some cat;
                              Collection.q_isActive := Some true;
                              Collection.q_stock_lte := None |} c)))
    /\ (forall t,
           fst (ProductRepository.findLowStock t c')
           = Ok (filter (fun x => negb (Collection.hasId id x))
                        (Collection.find
                           {| Collection.q_name := None;
                              Collection.q_id_ne := None;
                              Collection.q_category := None;
                              Collection.q_isActive := Some true;
                              Collection.q_stock_lte :=
                                Some (ProductRepository.orElse t 10) |} c))).
Proof.
  intros Hu Hfind Hact.
  exists (Collection.apply (Collection.SetIsActive false) now p).
  exists (Collection.replaceById id
            (Collection.apply (Collection.SetIsActive false) now) c).
  split.
  { unfold ProductService.deleteProduct, bind, ProductRepository.findById,
      reads.
    rewrite Hfind, Hact. cbn [negb].
    unfold ProductRepository.softDelete, Collection.findByIdAndUpdate.
    rewrite Hfind. reflexivity. }
  split; [reflexivity|].
  split.
  - intros cat. unfold ProductRepository.findByCategory, reads. cbn [fst].
    f_equal. unfold Collection.find.
    rewrite (@filter_replaceById_hidden _ id _ c Hu).
    + rewrite filter_twice. reflexivity.
    + intros x. unfold Collection.matches. simpl.
      rewrite !andb_true_r, andb_false_r. reflexivity.
  - intros t. unfold ProductRepository.findLowStock, reads. cbn [fst].
    f_equal. unfold Collection.find.
    rewrite (@filter_replaceById_hidden _ id _ c Hu).
    + rewrite filter_twice. reflexivity.
    + intros x. unfold Collection.matches. simpl. reflexivity.
Qed.

Lemma deleteProduct_hides_product_from_lookups_witness :
  exists p' c',
    ProductService.deleteProduct 1%N 2000 shelf = (Ok (Some p'), c')
    /\ ProductModel.isAvailable p' = false
    /\ fst (ProductRepository.findByCategory "electronics" c') = Ok []
    /\ fst (ProductRepository.findLowStock None c') = Ok [].
Proof.
  destruct (@deleteProduct_hides_product_from_lookups shelf 1%N
              (sampleProduct 1%N "Widget Pro" "electronics"
                             (999 # 100) 5 true 100) 2000)
    as (p' & c' & Hrun & Hav & Hcat & Hlow).
  - unfold uniqueIds, shelf. simpl.
    repeat constructor; simpl; intuition discriminate.
  - reflexivity.
  - reflexivity.
  - exists p', c'. split; [exact Hrun|]. split; [exact Hav|].
    split; [rewrite Hcat | rewrite Hlow]; reflexivity.
Defined.

(** ** Stock adjustments, composed *)

Lemma replaceById_twice
      (id : ObjectId) (f g : Product -> Product) (c : Collection.t) :
  (forall p, _id (f p) = _id p) ->
  Collection.replaceById id g (Collection.replaceById id f c)
  = Collection.replaceById id (fun p => g (f p)) c.
Proof.
  intros Hf. induction c as [|x c IH]; simpl; [reflexivity|].
  destruct (Collection.hasId id x) eqn:E; simpl.
  - unfold Collection.hasId in *. rewrite Hf, E. reflexivity.
  - rewrite E, IH. reflexivity.
Qed.

Lemma replaceById_ext
      (id : ObjectId) (f g : Product -> Product) (c : Collection.t) :
  (forall p, f p = g p) ->
  Collection.replaceById id f c = Collection.replaceById id g c.
Proof.
  intros Hfg. induction c as [|x c IH]; simpl; [reflexivity|].
  rewrite Hfg, IH. reflexivity.
Qed.

(** X10.  Two stock adjustments add up.  When neither step would make the
    stock negative, adjusting the stock of a product by [d1] and then by
    [d2] leaves the product and the whole collection exactly as one
    adjustment by [d1 + d2] made at the time of the second: the stock is
    the initial stock plus [d1 + d2]. *)
Theorem updateStock_twice_adds_up
  (c : Collection.t) (id : ObjectId) (p : Product) (d1 d2 now1 now2 : Z) :
  Collection.findById id c = Some p ->
  0 <= stock p + d1 ->
  0 <= stock p + d1 + d2 ->
  exists p1 c1 p2 c2,
    ProductService.updateStock id d1 now1 c = (Ok (Some p1), c1)
    /\ ProductService.updateStock id d2 now2 c1 = (Ok (Some p2), c2)
    /\ stock p2 = stock p + (d1 + d2)
    /\ ProductService.updateStock id (d1 + d2) now2 c = (Ok (Some p2), c2).
Proof.
  intros Hfind H1 H2.
  assert (Hstep : forall c0 p0 d t,
             Collection.findById id c0 = Some p0 ->
             0 <= stock p0 + d ->
             ProductService.updateStock id d t c0
             = (Ok (Some (Collection.apply (Collection.IncStock d) t p0)),
                Collection.replaceById id
                  (Collection.apply (Collection.IncStock d) t) c0)).
  { intros c0 p0 d t Hf Hd.
    unfold ProductService.updateStock, bind, ProductRepository.findById,
      reads.
    rewrite Hf.
    replace (stock p0 + d <? 0) with false
      by (symmetry; apply Z.ltb_ge; exact Hd).
    unfold ProductRepository.updateStock, Collection.findByIdAndUpdate.
    rewrite Hf. reflexivity. }
  assert (Hcomp : forall x,
             Collection.apply (Collection.IncStock d2) now2
               (Collection.apply (Collection.IncStock d1) now1 x)
             = Collection.apply (Collection.IncStock (d1 + d2)) now2 x).
  { intros x. unfold Collection.apply. simpl. f_equal. lia. }
  do 4 eexists.
  split; [apply (Hstep c p d1 now1 Hfind H1)|].
  split.
  { apply Hstep.
    - apply findById_replaceById_same; [apply apply_keeps_id|exact Hfind].
    - simpl. exact H2. }
  split; [simpl; lia|].
  rewrite (Hstep c p (d1 + d2) now2 Hfind) by lia.
  rewrite Hcomp, replaceById_twice by apply apply_keeps_id.
  rewrite (replaceById_ext id _ _ c Hcomp). reflexivity.
Qed.

Lemma updateStock_twice_adds_up_witness :
  exists p1 c1 p2 c2,
    ProductService.updateStock 1%N 4 2000 shelf = (Ok (Some p1), c1)
    /\ ProductService.updateStock 1%N (-9) 3000 c1 = (Ok (Some p2), c2)
    /\ stock p2 = 5 + (4 + -9)
    /\ ProductService.updateStock 1%N (4 + -9) 3000 shelf
       = (Ok (Some p2), c2).
Proof.
  apply (@updateStock_twice_adds_up shelf 1%N
           (sampleProduct 1%N "Widget Pro" "electronics"
                          (999 # 100) 5 true 100) 4 (-9) 2000 3000).
  - reflexivity.
  - simpl. lia.
  - simpl. lia.
Defined.

(** ** Updating a product *)

(** The run of an update that passes every check. *)
Lemma updateProduct_run
      (c : Collection.t) (id : ObjectId) (p : Product) (u : productData)
      (now : Z) :
  Collection.findById id c = Some p ->
  ProductModel.validateUpdate u = [] ->
  ProductService.belowMinimum (d_price u) = false ->
  (ProductService.renames u p = false
   \/ ProductRepository.existsByName (d_name u) (Some id) c = (Ok false, c)) ->
  ProductService.updateProduct id u now c
  = (Ok (Some (applyData u now p)),
     Collection.replaceById id (applyData u now) c).
Proof.
  intros Hfind Hv Hmin Hname.
  unfold ProductService.updateProduct, bind, ProductRepository.findById,
    reads.
  rewrite Hfind.
  assert (Htail : (if ProductService.belowMinimum (d_price u)
                   then throw 400 "El precio debe ser mayor a $0.01"
                   else ProductRepository.update id u now) c
                  = (Ok (Some (applyData u now p)),
                     Collection.replaceById id (applyData u now) c)).
  { rewrite Hmin. unfold ProductRepository.update. rewrite Hv.
    unfold Collection.findByIdAndSet. rewrite Hfind. reflexivity. }
  destruct (ProductService.renames u p) eqn:Hren.
  - destruct Hname as [Hname|Hname]; [discriminate|].
    rewrite Hname. exact Htail.
  - unfold ret. exact Htail.
Qed.



(** X12.  Reactivation.  The update [{ isActive: true }] passes the
    request validator and the service, so a soft-deleted product is made
    active again by an update: only [isActive] (and [updatedAt]) change,
    and the product can then be soft-deleted once more. *)
Theorem updateProduct_reactivates
  (c : Collection.t) (id : ObjectId) (p : Product) (now now2 : Z) :
  Collection.findById id c = Some p ->
  Validator.validateProductUpdate (setActive true) = Ok tt
  /\ exists p' c',
       ProductService.updateProduct id (setActive true) now c
       = (Ok (Some p'), c')
       /\ isActive p' = true
       /\ name p' = name p /\ description p' = description p
       /\ price p' = price p /\ category p' = category p
       /\ stock p' = stock p
       /\ exists p'' c'',
            ProductService.deleteProduct id now2 c' = (Ok (Some p''), c'')
            /\ isActive p'' = false.
Proof.
  intros Hfind. split; [reflexivity|].
  exists (applyData (setActive true) now p).
  exists (Collection.replaceById id (applyData (setActive true) now) c).
  split.
  { apply updateProduct_run; [exact Hfind|reflexivity|reflexivity|].
    left. reflexivity. }
  repeat (split; [reflexivity|]).
  do 2 eexists.
  unfold ProductService.deleteProduct, bind, ProductRepository.findById,
    reads.
  rewrite (@findById_replaceById_same id (applyData (setActive true) now)
             (fun x => eq_refl) c p Hfind).
  cbn [applyData isActive d_isActive setActive negb].
  unfold ProductRepository.softDelete, Collection.findByIdAndUpdate.
  rewrite (@findById_replaceById_same id (applyData (setActive true) now)
             (fun x => eq_refl) c p Hfind).
  split; reflexivity.
Qed.

Lemma updateProduct_reactivates_witness :
  exists p' c',
    ProductService.updateProduct 2%N (setActive true) 5000 shelf
    = (Ok (Some p'), c')
    /\ isActive p' = true
    /\ name p' = "Old Radio".
Proof.
  destruct (@updateProduct_reactivates shelf 2%N
              (sampleProduct 2%N "Old Radio" "electronics" (25 # 1) 2
                             false 200) 5000 6000 eq_refl)
    as (_ & p' & c' & Hrun & Hact & Hn & _).
  exists p', c'. split; [exact Hrun|]. split; [exact Hact | exact Hn].
Defined.

Lemma existsByName_literal_excluding
      (n : string) (id : ObjectId) (c : Collection.t) :
  Js.isLiteral n = true ->
  ProductRepository.existsByName (Some n) (Some id) c
  = (Ok (existsb (fun p => Js.eqIgnoreCase n (name p)
                           && negb (N.eqb (_id p) id)) c), c).
Proof.
  intros Hlit. unfold ProductRepository.existsByName.
  cbn [ProductRepository.template ProductRepository.orElse].
  rewrite (@RegExpFacts.RegExp_literal n Hlit).
  unfold bind, reads, ret. f_equal. f_equal.
  unfold Collection.findOne.
  induction c as [|p c IH]; [reflexivity|].
  cbn [find existsb]. unfold Collection.matches at 1.
  cbn [Collection.q_name Collection.q_id_ne Collection.q_category
       Collection.q_isActive Collection.q_stock_lte Collection.holds].
  rewrite RegExpFacts.test_literal, !andb_true_r.
  destruct (Js.eqIgnoreCase n (name p) && negb (N.eqb (_id p) id));
    [reflexivity|exact IH].
Qed.

(** X13.  Renaming onto another product.  An update that renames a
    product to a name free of pattern-syntax characters which equals,
    ignoring case, the name of another stored product fails with "Ya
    existe otro producto con ese nombre" (400) and changes nothing. *)
Theorem updateProduct_rename_onto_other_is_rejected
  (c : Collection.t) (id : ObjectId) (p q : Product) (u : productData)
  (n : string) (now : Z) :
  Collection.findById id c = Some p ->
  d_name u = Some n ->
  n <> EmptyString ->
  n <> name p ->
  Js.isLiteral n = true ->
  In q c ->
  _id q <> id ->
  Js.eqIgnoreCase n (name q) = true ->
  ProductService.updateProduct id u now c
  = (throwApi 400 "Ya existe otro producto con ese nombre", c).
Proof.
  intros Hfind Hn Hne Hdiff Hlit Hin Hid Heq.
  unfold ProductService.updateProduct, bind, ProductRepository.findById,
    reads.
  rewrite Hfind. unfold ProductService.renames. rewrite Hn.
  replace (String.eqb n EmptyString) with false
    by (symmetry; apply String.eqb_neq; exact Hne).
  replace (String.eqb n (name p)) with false
    by (symmetry; apply String.eqb_neq; exact Hdiff).
  cbn [negb andb].
  rewrite (@existsByName_literal_excluding n id c Hlit).
  replace (existsb _ c) with true; [reflexivity|].
  symmetry. apply existsb_exists. exists q. split; [exact Hin|].
  rewrite Heq. cbn [andb]. apply negb_true_iff. apply N.eqb_neq. exact Hid.
Qed.

Lemma updateProduct_rename_onto_other_is_rejected_witness :
  ProductService.updateProduct 3%N
    {| d_name := Some "old radio"; d_description := None;
       d_price := None; d_category := None; d_stock := None;
       d_isActive := None |} 5000 shelf
  = (throwApi 400 "Ya existe otro producto con ese nombre", shelf).
Proof.
  apply (@updateProduct_rename_onto_other_is_rejected shelf 3%N
           (sampleProduct 3%N "Notebook" "books" (3 # 2) 40 true 300)
           (sampleProduct 2%N "Old Radio" "electronics" (25 # 1) 2
                          false 200)
           _ "old radio" 5000).
  - reflexivity.
  - reflexivity.
  - discriminate.
  - discriminate.
  - reflexivity.
  - simpl. right. left. reflexivity.
  - discriminate.
  - reflexivity.
Defined.

(** ** The update validator *)

(** X14.  Whatever the create validator accepts, the update validator
    accepts: a body that passes [validateProductCreate] passes
    [validateProductUpdate]. *)
Theorem validateProductUpdate_accepts_create_bodies (d : productData) :
  Validator.validateProductCreate d = Ok tt ->
  Validator.validateProductUpdate d = Ok tt.
Proof.
  unfold Validator.validateProductCreate, Validator.validateProductUpdate.
  destruct (Validator.createErrors d) eqn:Hc; [|discriminate].
  intros _. unfold Validator.createErrors in Hc.
  apply app_nil_inv in Hc. destruct Hc as [Hn Hc].
  apply app_nil_inv in Hc. destruct Hc as [Hd Hc].
  apply app_nil_inv in Hc. destruct Hc as [Hp Hc].
  apply app_nil_inv in Hc. destruct Hc as [Hs Hcat].
  assert (Hu : Validator.updateErrors d = []).
  { unfold Validator.updateErrors. rewrite Hs.
    unfold Validator.nameErrors, Validator.missing in Hn.
    unfold Validator.descriptionErrors, Validator.missing in Hd.
    unfold Validator.priceErrors in Hp.
    unfold Validator.categoryErrors in Hcat.
    destruct (d_name d) as [n|]; [|discriminate].
    destruct (String.eqb n EmptyString); [discriminate|].
    destruct (String.eqb (Js.trim n) EmptyString); [discriminate|].
    cbn [orb] in Hn.
    destruct (Validator.lengthOutside (Some n) 3 100); [discriminate|].
    destruct (d_description d) as [s|]; [|discriminate].
    destruct (String.eqb s EmptyString); [discriminate|].
    destruct (String.eqb (Js.trim s) EmptyString); [discriminate|].
    cbn [orb] in Hd.
    destruct (Validator.lengthOutside (Some s) 10 500); [discriminate|].
    destruct (d_price d) as [q|]; [|discriminate].
    destruct (Qlt_bool q 0); [discriminate|].
    destruct (d_category d) as [cat|]; [|discriminate].
    destruct (String.eqb cat EmptyString); [discriminate|].
    destruct (negb (includes Validator.validCategories cat));
      [discriminate|].
    reflexivity. }
  rewrite Hu. reflexivity.
Qed.

Lemma validateProductUpdate_accepts_create_bodies_witness :
  Validator.validateProductUpdate widgetPro = Ok tt.
Proof.
  apply (@validateProductUpdate_accepts_create_bodies widgetPro).
  reflexivity.
Defined.

(** The converse fails: the update validator accepts the empty body, the
    create validator does not. *)
Example validateProductUpdate_accepts_empty_body :
  Validator.validateProductUpdate emptyBody = Ok tt
  /\ Validator.validateProductCreate emptyBody <> Ok tt.
Proof. split; [reflexivity | discriminate]. Qed.

(** X15.  The category cannot be updated over HTTP.  An update that the
    request validator accepts and that carries a category is refused by
    the schema's update validators (the validator's categories are not
    those of the schema's [enum]): whenever the handler answers, it
    answers an error, and the collection is left as it was. *)
Theorem validated_category_update_never_succeeds
  (u : productData) (cat : string) (id : ObjectId) (now : Z)
  (c : Collection.t) :
  Validator.validateProductUpdate u = Ok tt ->
  d_category u = Some cat ->
  snd (ProductController.updateProduct id u now c) = c
  /\ forall r, fst (ProductController.updateProduct id u now c) = Some r ->
               success r = false.
Proof.
  unfold Validator.validateProductUpdate.
  destruct (Validator.updateErrors u) eqn:Hu; [|discriminate].
  intros _ Hcat.
  assert (Hbad : ProductModel.validateUpdate u <> []).
  { unfold Validator.updateErrors in Hu.
    repeat (apply app_nil_inv in Hu; destruct Hu as [_ Hu]).
    rewrite Hcat in Hu.
    destruct (includes Validator.validCategories cat) eqn:Hin;
      [|discriminate].
    unfold ProductModel.validateUpdate. rewrite Hcat. intros Hnil.
    apply app_nil_inv in Hnil. destruct Hnil as [_ Hnil].
    apply app_nil_inv in Hnil. destruct Hnil as [_ Hnil].
    apply app_nil_inv in Hnil. destruct Hnil as [_ Hnil].
    apply app_nil_inv in Hnil. destruct Hnil as [Hnil _].
    unfold includes, Validator.validCategories in Hin. simpl in Hin.
    repeat (apply orb_true_iff in Hin; destruct Hin as [Hin|Hin];
            [apply String.eqb_eq in Hin; subst cat; vm_compute in Hnil;
             discriminate|]).
    discriminate. }
  unfold ProductController.updateProduct, ProductController.respond.
  destruct (updateProduct_cases c id u now)
    as [Hsame|(p & _ & Hv & _)]; [|contradiction].
  destruct (ProductService.updateProduct id u now c) as [[v|e|] c'] eqn:Hrun;
    cbn [snd fst] in *; subst c'.
  - exfalso.
    unfold ProductService.updateProduct, bind, ProductRepository.findById,
      reads in Hrun.
    destruct (Collection.findById id c) as [p|]; [|discriminate].
    assert (Htail : forall r,
               (if ProductService.belowMinimum (d_price u)
                then throw 400 "El precio debe ser mayor a $0.01"
                else ProductRepository.update id u now) c = (Ok r, c) ->
               False).
    { intros r. destruct (ProductService.belowMinimum (d_price u));
        [discriminate|].
      unfold ProductRepository.update.
      destruct (ProductModel.validateUpdate u); [contradiction|discriminate]. }
    destruct (ProductService.renames u p).
    + destruct (ProductRepository.existsByName (d_name u) (Some id) c)
        as [[dup|e|] c0]; [|discriminate..].
      pose proof (existsByName_reads (d_name u) (Some id) c) as Hc.
      destruct dup; [discriminate|].
      destruct (ProductService.belowMinimum (d_price u)); [discriminate|].
      unfold ProductRepository.update in Hrun.
      destruct (ProductModel.validateUpdate u); [contradiction|discriminate].
    + unfold ret in Hrun. exact (Htail v Hrun).
  - split; [reflexivity|]. intros r [= <-]. destruct e; reflexivity.
  - split; [reflexivity|]. discriminate.
Qed.

Lemma validated_category_update_never_succeeds_witness :
  snd (ProductController.updateProduct 1%N
         {| d_name := None; d_description := None; d_price := None;
            d_category := Some "books"; d_stock := None;
            d_isActive := None |} 5000 shelf) = shelf
  /\ forall r,
      fst (ProductController.updateProduct 1%N
             {| d_name := None; d_description := None; d_price := None;
                d_category := Some "books"; d_stock := None;
                d_isActive := None |} 5000 shelf) = Some r ->
      success r = false.
Proof.
  apply (@validated_category_update_never_succeeds _ "books" 1%N 5000 shelf).
  - reflexivity.
  - reflexivity.
Defined.

(** ** Pagination, continued *)

(** The run of a list request with a positive page and limit. *)
Lemma findAll_run
      (c : Collection.t) (filters : Collection.query)
      (opts : ProductRepository.options) (p l : Z) :
  ProductRepository.orElse (ProductRepository.o_page opts) 1 = p ->
  ProductRepository.orElse (ProductRepository.o_limit opts) 10 = l ->
  1 <= p -> 1 <= l ->
  let ordered :=
    Collection.sort
      (ProductRepository.orElse (ProductRepository.o_sortBy opts)
                                "createdAt")
      (if String.eqb
            (ProductRepository.orElse (ProductRepository.o_sortOrder opts)
                                      "desc") "asc"
       then 1 else -1)
      (Collection.find filters c) in
  let n := Z.of_nat (List.length (Collection.find filters c)) in
  ProductRepository.findAll filters opts c
  = (Ok {| ProductRepository.products := slice ((p - 1) * l) l ordered;
           ProductRepository.paging :=
             {| ProductRepository.total := n;
                ProductRepository.page := p;
                ProductRepository.totalPages := Some (- (- n / l));
                ProductRepository.hasMore :=
                  ((p - 1) * l
                   + Z.of_nat (List.length (slice ((p - 1) * l) l ordered))
                   <? n) |} |}, c).
Proof.
  intros Hp Hl Hp1 Hl1 ordered n.
  unfold ProductRepository.findAll, bind, reads, ret.
  rewrite Hp, Hl. fold ordered.
  unfold Collection.skip, Collection.limit, ProductRepository.ceilDiv,
    Collection.countDocuments.
  replace ((p - 1) * l <? 0) with false by (symmetry; apply Z.ltb_ge; nia).
  replace (l =? 0) with false by (symmetry; apply Z.eqb_neq; lia).
  rewrite Z.abs_eq by lia.
  reflexivity.
Qed.

Lemma length_zero_nil {A : Type} (l : list A) :
  Z.of_nat (List.length l) = 0 -> l = [].
Proof. destruct l; simpl; [reflexivity | lia]. Qed.

(** X16.  [hasMore] and [totalPages] agree.  For a positive page [p] and
    limit [l] over [n] matching records, [totalPages] is the least [t]
    with [n <= t * l], [hasMore] is true exactly when [p < totalPages],
    and a page past the last one is empty. *)
Theorem findAll_hasMore_iff_pages_remain
  (c : Collection.t) (filters : Collection.query)
  (opts : ProductRepository.options) (p l : Z) :
  ProductRepository.orElse (ProductRepository.o_page opts) 1 = p ->
  ProductRepository.orElse (ProductRepository.o_limit opts) 10 = l ->
  1 <= p -> 1 <= l ->
  let n := Z.of_nat (List.length (Collection.find filters c)) in
  exists r t,
    ProductRepository.findAll filters opts c = (Ok r, c)
    /\ ProductRepository.totalPages (ProductRepository.paging r) = Some t
    /\ (t - 1) * l < n <= t * l
    /\ ProductRepository.hasMore (ProductRepository.paging r) = (p <? t)
    /\ (t < p -> ProductRepository.products r = []).
Proof.
  intros Hp Hl Hp1 Hl1 n.
  pose proof (@findAll_run c filters opts p l Hp Hl Hp1 Hl1) as Hrun.
  cbv zeta in Hrun. fold n in Hrun.
  set (ordered := Collection.sort _ _ _) in Hrun.
  assert (Hlen : Z.of_nat (List.length (slice ((p - 1) * l) l ordered))
                 = Z.max 0 (Z.min l (n - (p - 1) * l))).
  { rewrite length_slice by nia. unfold ordered. rewrite length_sort.
    reflexivity. }
  assert (Ht : (- (- n / l) - 1) * l < n <= - (- n / l) * l).
  { pose proof (Z.div_mod (- n) l ltac:(lia)) as Hdm.
    pose proof (Z.mod_pos_bound (- n) l ltac:(lia)) as Hmod.
    nia. }
  eexists. exists (- (- n / l)).
  split; [exact Hrun|].
  cbn [ProductRepository.products ProductRepository.paging
       ProductRepository.totalPages ProductRepository.hasMore].
  split; [reflexivity|]. split; [exact Ht|].
  split.
  - rewrite Hlen.
    destruct (p <? - (- n / l)) eqn:E.
    + apply Z.ltb_lt in E. apply Z.ltb_lt. nia.
    + apply Z.ltb_ge in E. apply Z.ltb_ge. nia.
  - intros Hpast. apply length_zero_nil. rewrite Hlen. nia.
Qed.

Lemma findAll_hasMore_iff_pages_remain_witness :
  exists r t,
    ProductRepository.findAll Collection.all secondPage fifteen
    = (Ok r, fifteen)
    /\ ProductRepository.totalPages (ProductRepository.paging r) = Some t
    /\ (t - 1) * 10 < 15 <= t * 10
    /\ ProductRepository.hasMore (ProductRepository.paging r) = (2 <? t).
Proof.
  destruct (@findAll_hasMore_iff_pages_remain fifteen Collection.all
              secondPage 2 10 eq_refl eq_refl ltac:(lia) ltac:(lia))
    as (r & t & Hrun & Ht & Hb & Hm & _).
  exists r, t. split; [exact Hrun|]. split; [exact Ht|].
  split; [exact Hb | exact Hm].
Defined.

Lemma firstn_add_skipn {A : Type} (a b : nat) (l : list A) :
  firstn (a + b) l = (firstn a l ++ firstn b (skipn a l))%list.
Proof.
  revert l. induction a as [|a IH]; intros l; simpl; [reflexivity|].
  destruct l as [|x l]; simpl.
  - rewrite firstn_nil. reflexivity.
  - rewrite IH. reflexivity.
Qed.

Lemma pageOf_slice
      (filters : Collection.query) (sortBy sortOrder : option string)
      (l : Z) (i : nat) (c : Collection.t) :
  1 <= l ->
  pageOf filters sortBy sortOrder l (Z.of_nat (S i)) c
  = firstn (Z.to_nat l)
           (skipn (i * Z.to_nat l)
                  (Collection.sort
                     (ProductRepository.orElse sortBy "createdAt")
                     (if String.eqb
                           (ProductRepository.orElse sortOrder "desc") "asc"
                      then 1 else -1)
                     (Collection.find filters c))).
Proof.
  intros Hl. unfold pageOf.
  rewrite (@findAll_run c filters
             {| ProductRepository.o_page := Some (Z.of_nat (S i));
                ProductRepository.o_limit := Some l;
                ProductRepository.o_sortBy := sortBy;
                ProductRepository.o_sortOrder := sortOrder |}
             (Z.of_nat (S i)) l eq_refl eq_refl ltac:(lia) Hl).
  cbn [fst ProductRepository.products ProductRepository.o_sortBy
       ProductRepository.o_sortOrder].
  unfold slice. do 2 f_equal. 
  replace ((Z.of_nat (S i) - 1) * l) with (Z.of_nat i * l) by lia.
  rewrite Z2Nat.inj_mul by lia. rewrite Nat2Z.id. reflexivity.
Qed.

(** X17.  Paging through a listing.  With a positive limit [l] and fixed
    filters and sort options, the pages 1 to [k] put end to end are the
    first [k * l] records of one ordering of the matching records; once
    [k * l] reaches their number, the pages together hold every matching
    record exactly once. *)
Theorem paging_covers_every_record_once
  (c : Collection.t) (filters : Collection.query)
  (sortBy sortOrder : option string) (l : Z) (k : nat) :
  1 <= l ->
  exists ordered,
    Permutation ordered (Collection.find filters c)
    /\ List.concat (map (fun i => pageOf filters sortBy sortOrder l (Z.of_nat i) c)
                   (seq 1 k))
       = firstn (k * Z.to_nat l) ordered
    /\ (Z.of_nat (List.length (Collection.find filters c)) <= Z.of_nat k * l ->
        Permutation
          (List.concat (map (fun i =>
                          pageOf filters sortBy sortOrder l (Z.of_nat i) c)
                       (seq 1 k)))
          (Collection.find filters c)).
Proof.
  intros Hl.
  set (ordered := Collection.sort
                    (ProductRepository.orElse sortBy "createdAt")
                    (if String.eqb
                          (ProductRepository.orElse sortOrder "desc") "asc"
                     then 1 else -1)
                    (Collection.find filters c)).
  assert (Hcat : forall j,
             List.concat (map (fun i =>
                            pageOf filters sortBy sortOrder l (Z.of_nat i) c)
                         (seq 1 j))
             = firstn (j * Z.to_nat l) ordered).
  { induction j as [|j IH]; [reflexivity|].
    rewrite seq_S, map_app, concat_app, IH. cbn [map List.concat plus].
    rewrite app_nil_r, (pageOf_slice filters sortBy sortOrder j c Hl).
    fold ordered.
    replace (S j * Z.to_nat l)%nat with (j * Z.to_nat l + Z.to_nat l)%nat
      by lia.
    rewrite firstn_add_skipn. reflexivity. }
  exists ordered. split; [apply sort_perm|]. split; [apply Hcat|].
  intros Hk. rewrite Hcat, firstn_all2; [apply sort_perm|].
  unfold ordered. rewrite length_sort. nia.
Qed.

Lemma paging_covers_every_record_once_witness :
  Permutation
    (List.concat (map (fun i => pageOf Collection.all None None 10 (Z.of_nat i)
                                  fifteen)
                 (seq 1 2)))
    (Collection.find Collection.all fifteen).
Proof.
  destruct (@paging_covers_every_record_once fifteen Collection.all
              None None 10 2 ltac:(lia)) as (ordered & _ & _ & Hall).
  apply Hall. vm_compute. discriminate.
Defined.

Section SortedFacts.

Variable le : Product -> Product -> bool.
Hypothesis le_total : forall x y, le x y = false -> le y x = true.
Hypothesis le_trans :
  forall x y z, le x y = true -> le y z = true -> le x z = true.

Let R (x y : Product) : Prop := le x y = true.

Lemma insertSorted_sorted (x : Product) (l : list Product) :
  StronglySorted R l -> StronglySorted R (Collection.insertSorted le x l).
Proof.
  induction l as [|y l IH]; intros Hs; simpl.
  - constructor; constructor.
  - inversion Hs as [|a b Hl Hy]; subst.
    destruct (le x y) eqn:E.
    + constructor; [exact Hs|]. constructor; [exact E|].
      apply Forall_forall. intros z Hz. apply (le_trans E).
      exact (proj1 (Forall_forall _ _) Hy z Hz).
    + constructor; [exact (IH Hl)|].
      apply (Permutation_Forall
               (Permutation_sym (@insertSorted_perm le x l))).
      constructor; [exact (le_total E) | exact Hy].
Qed.

End SortedFacts.

Lemma StronglySorted_impl
      (R R' : Product -> Product -> Prop) (l : list Product) :
  (forall x y, R x y -> R' x y) ->
  StronglySorted R l -> StronglySorted R' l.
Proof.
  intros Himp Hs. induction Hs as [|a l Hl IH Ha]; constructor.
  - exact IH.
  - apply Forall_forall. intros z Hz. apply Himp.
    exact (proj1 (Forall_forall _ _) Ha z Hz).
Qed.

Lemma StronglySorted_skipn
      (R : Product -> Product -> Prop) (n : nat) (l : list Product) :
  StronglySorted R l -> StronglySorted R (skipn n l).
Proof.
  revert l. induction n as [|n IH]; intros l Hs; simpl; [exact Hs|].
  destruct l as [|x l]; [constructor|].
  inversion Hs; subst. apply IH. assumption.
Qed.

Lemma In_firstn {A : Type} (n : nat) (l : list A) (x : A) :
  In x (firstn n l) -> In x l.
Proof.
  revert l. induction n as [|n IH]; intros l; simpl; [tauto|].
  destruct l as [|y l]; simpl; [tauto|].
  intros [H|H]; [left; exact H | right; exact (IH _ H)].
Qed.

Lemma StronglySorted_firstn
      (R : Product -> Product -> Prop) (n : nat) (l : list Product) :
  StronglySorted R l -> StronglySorted R (firstn n l).
Proof.
  revert l. induction n as [|n IH]; intros l Hs; simpl; [constructor|].
  destruct l as [|x l]; [constructor|].
  inversion Hs as [|a b Hl Hx]; subst. constructor; [apply IH; exact Hl|].
  apply Forall_forall. intros z Hz. apply In_firstn in Hz.
  exact (proj1 (Forall_forall _ _) Hx z Hz).
Qed.

Lemma sort_by_creation_time (dir : Z) (l : list Product) :
  StronglySorted
    (fun x y => if dir =? 1 then createdAt x <= createdAt y
                else createdAt y <= createdAt x)
    (Collection.sort "createdAt" dir l).
Proof.
  apply StronglySorted_impl
    with (R := fun x y => Collection.before "createdAt" dir x y = true).
  - intros x y. unfold Collection.before. destruct (dir =? 1);
      cbn; intros H; apply Z.leb_le; exact H.
  - induction l as [|x l IH]; simpl; [constructor|].
    apply insertSorted_sorted; [| |exact IH].
    + intros a b. unfold Collection.before. destruct (dir =? 1); cbn;
        intros H; apply Z.leb_le; apply Z.leb_gt in H; lia.
    + intros a b d. unfold Collection.before. destruct (dir =? 1); cbn;
        intros H1 H2; apply Z.leb_le; apply Z.leb_le in H1;
        apply Z.leb_le in H2; lia.
Qed.

(** X18.  Order of a listing by creation time.  When the listing is
    sorted by [createdAt] (the default), a page is in increasing order of
    creation time if the sort order is exactly "asc", and in decreasing
    order, newest first, for any other sort order or none. *)
Theorem findAll_orders_by_creation_time
  (c : Collection.t) (filters : Collection.query)
  (opts : ProductRepository.options) (p l : Z) :
  ProductRepository.orElse (ProductRepository.o_page opts) 1 = p ->
  ProductRepository.orElse (ProductRepository.o_limit opts) 10 = l ->
  1 <= p -> 1 <= l ->
  ProductRepository.orElse (ProductRepository.o_sortBy opts) "createdAt"
  = "createdAt" ->
  exists r,
    ProductRepository.findAll filters opts c = (Ok r, c)
    /\ (ProductRepository.o_sortOrder opts = Some "asc" ->
        StronglySorted (fun x y => createdAt x <= createdAt y)
                       (ProductRepository.products r))
    /\ (ProductRepository.o_sortOrder opts <> Some "asc" ->
        StronglySorted (fun x y => createdAt y <= createdAt x)
                       (ProductRepository.products r)).
Proof.
  intros Hp Hl Hp1 Hl1 Hby.
  pose proof (@findAll_run c filters opts p l Hp Hl Hp1 Hl1) as Hrun.
  cbv zeta in Hrun. rewrite Hby in Hrun.
  eexists. split; [exact Hrun|].
  cbn [ProductRepository.products]. unfold slice.
  split.
  - intros Hasc. rewrite Hasc. cbn.
    apply StronglySorted_firstn, StronglySorted_skipn.
    exact (sort_by_creation_time 1 _).
  - intros Hdesc.
    assert (Hdir : String.eqb
                     (ProductRepository.orElse
                        (ProductRepository.o_sortOrder opts) "desc") "asc"
                   = false).
    { destruct (ProductRepository.o_sortOrder opts) as [s|]; [|reflexivity].
      cbn. apply String.eqb_neq. intros ->. apply Hdesc. reflexivity. }
    rewrite Hdir.
    apply StronglySorted_firstn, StronglySorted_skipn.
    exact (sort_by_creation_time (-1) _).
Qed.

Lemma findAll_orders_by_creation_time_witness :
  exists r,
    ProductRepository.findAll Collection.all ProductRepository.noOptions shelf
    = (Ok r, shelf)
    /\ StronglySorted (fun x y => createdAt y <= createdAt x)
                      (ProductRepository.products r).
Proof.
  destruct (@findAll_orders_by_creation_time shelf Collection.all
              ProductRepository.noOptions 1 10 eq_refl eq_refl
              ltac:(lia) ltac:(lia) eq_refl) as (r & Hrun & _ & Hdesc).
  exists r. split; [exact Hrun|]. apply Hdesc. discriminate.
Defined.

(** ** Lookup by name *)

Module FindByNameFacts.

Import Js.

Lemma run_literals_only (cs : list ascii) :
  forall st,
    esc st = false ->
    stack st = [] ->
    forallb (fun c => negb (isSyntaxCharacter c)) cs = true ->
    run st cs
    = Compiled
        (mkAlt {| alts := alts (cur st);
                  terms := (rev (map RChr cs) ++ terms (cur st))%list |}).
Proof.
  induction cs as [|c cs IH]; intros st Hesc Hstack Hlit.
  - simpl. unfold finish. rewrite Hesc, Hstack. destruct st as [s [a t] tl e].
    reflexivity.
  - simpl in Hlit. apply andb_true_iff in Hlit. destruct Hlit as [Hc Hcs].
    apply negb_true_iff in Hc.
    cbn [run]. rewrite (@RegExpFacts.step_literal st c Hesc Hc).
    rewrite IH by (try reflexivity; assumption).
    simpl. rewrite <- app_assoc. reflexivity.
Qed.

Lemma RegExp_literal_only (n : string) :
  isLiteral n = true ->
  RegExp n
  = Compiled (fold_right RCat REps (map RChr (list_ascii_of_string n))).
Proof.
  intros Hlit. unfold RegExp.
  rewrite run_literals_only by (try reflexivity; exact Hlit).
  unfold mkAlt, mkSeq. cbn [alts terms cur start fold_left].
  rewrite app_nil_r, rev_involutive. reflexivity.
Qed.

Lemma matcher_prefix (cs : list ascii) :
  forall b s,
    matcher (fold_right RCat REps (map RChr cs)) (fun _ _ => true) b s
    = prefixChars cs s.
Proof.
  induction cs as [|x cs IH]; intros b s.
  - destruct s; reflexivity.
  - destruct s as [|c s]; [reflexivity|].
    cbn [map fold_right matcher prefixChars]. rewrite IH. reflexivity.
Qed.

Lemma search_occursIn (cs : list ascii) :
  forall b s,
    search (fold_right RCat REps (map RChr cs)) b s = occursIn cs s.
Proof.
  intros b s. revert b.
  induction s as [|c s IH]; intros b; cbn [search occursIn];
    rewrite matcher_prefix; [reflexivity|].
  rewrite IH. reflexivity.
Qed.

Lemma prefixChars_spec (a s : list ascii) :
  prefixChars a s = true
  <-> exists post, map upcase s = (map upcase a ++ post)%list.
Proof.
  revert s. induction a as [|x a IH]; intros s; simpl.
  - split; [intros _; exists (map upcase s); reflexivity | reflexivity].
  - destruct s as [|c s]; simpl.
    + split; [discriminate | intros [post H]; discriminate].
    + rewrite andb_true_iff, IH. unfold chrMatch. rewrite Ascii.eqb_eq.
      split.
      * intros [Hx [post H]]. exists post. rewrite Hx, H. reflexivity.
      * intros [post H]. injection H as Hc Hs. split; [auto|].
        exists post. exact Hs.
Qed.

Lemma occursIn_spec (a s : list ascii) :
  occursIn a s = true
  <-> exists pre post,
        map upcase s = (pre ++ map upcase a ++ post)%list.
Proof.
  induction s as [|c s IH]; cbn [occursIn].
  - rewrite orb_false_r, prefixChars_spec. split.
    + intros [post H]. exists [], post. exact H.
    + intros [pre [post H]]. simpl in H.
      destruct pre as [|h pre]; [exists post; exact H | discriminate].
  - rewrite orb_true_iff, prefixChars_spec, IH. split.
    + intros [[post H]|[pre [post H]]].
      * exists [], post. exact H.
      * exists (upcase c :: pre), post. simpl. rewrite H. reflexivity.
    + intros [pre [post H]]. destruct pre as [|h pre].
      * left. exists post. exact H.
      * right. simpl in H. injection H as _ H. exists pre, post. exact H.
Qed.

End FindByNameFacts.

(** X19.  Lookup by name is a case-insensitive substring search.  For a
    name free of pattern-syntax characters, [findByName] returns the first
    stored product whose name contains the given text, ignoring case, not
    only a product of exactly that name; with the empty text it returns
    the first product of the collection. *)
Theorem findByName_finds_first_name_containing
  (n : string) (c : Collection.t) :
  Js.isLiteral n = true ->
  ProductRepository.findByName n c
  = (Ok (List.find (fun p => Js.includesIgnoreCase n (name p)) c), c)
  /\ (forall s,
         Js.includesIgnoreCase n s = true
         <-> exists pre post,
               map Js.upcase (list_ascii_of_string s)
               = (pre ++ map Js.upcase (list_ascii_of_string n) ++ post)%list)
  /\ (n = EmptyString ->
      ProductRepository.findByName n c = (Ok (List.hd_error c), c)).
Proof.
  intros Hlit.
  assert (Hrun : ProductRepository.findByName n c
                 = (Ok (List.find (fun p => Js.includesIgnoreCase n (name p))
                                  c), c)).
  { unfold ProductRepository.findByName.
    rewrite (@FindByNameFacts.RegExp_literal_only n Hlit).
    unfold reads, Collection.findOne. do 2 f_equal.
    induction c as [|p c IH]; [reflexivity|].
    cbn [find]. unfold Collection.matches at 1.
    cbn [Collection.q_name Collection.q_id_ne Collection.q_category
         Collection.q_isActive Collection.q_stock_lte Collection.holds].
    unfold Js.test. rewrite FindByNameFacts.search_occursIn, !andb_true_r.
    fold (Js.includesIgnoreCase n (name p)).
    destruct (Js.includesIgnoreCase n (name p)); [reflexivity | exact IH]. }
  split; [exact Hrun|]. split.
  - intros s. unfold Js.includesIgnoreCase.
    apply FindByNameFacts.occursIn_spec.
  - intros ->. rewrite Hrun. destruct c as [|p c]; [reflexivity|].
    cbn [find hd_error]. unfold Js.includesIgnoreCase. destruct (name p);
      reflexivity.
Qed.

Lemma findByName_finds_first_name_containing_witness :
  ProductRepository.findByName "RADIO" shelf
  = (Ok (Some (sampleProduct 2%N "Old Radio" "electronics" (25 # 1) 2
                             false 200)), shelf).
Proof.
  destruct (@findByName_finds_first_name_containing "RADIO" shelf eq_refl)
    as (Hrun & _ & _).
  rewrite Hrun. reflexivity.
Defined.

(** ** The low-stock handler *)

Lemma findLowStock_filter (t : Z) (c : Collection.t) :
  ProductRepository.findLowStock (Some t) c
  = (Ok (filter (fun p => isActive p && (stock p <=? t)) c), c).
Proof.
  unfold ProductRepository.findLowStock, reads, Collection.find.
  do 2 f_equal. apply filter_ext. intros p.
  unfold Collection.matches. simpl. destruct (isActive p); reflexivity.
Qed.


(** The threshold 0 cannot be asked for. *)
Example thresholdOf_examples :
  ProductController.thresholdOf (Some "0") = 10
  /\ ProductController.thresholdOf (Some "abc") = 10
  /\ ProductController.thresholdOf None = 10
  /\ ProductController.thresholdOf (Some " 25 units") = 25
  /\ ProductController.thresholdOf (Some "-3") = -3.
Proof. repeat split. Qed.

(** ** Statistics, continued *)

Lemma sumCounts_increment (k : string) (m : list (string * Z)) :
  sumCounts (ProductService.increment k m) = sumCounts m + 1.
Proof.
  induction m as [|[k' n] m IH]; simpl; [reflexivity|].
  destruct (String.eqb k' k); simpl; lia.
Qed.

Lemma sumCounts_byCategory (l : list Product) :
  forall m,
    sumCounts
      (fold_left (fun m p => ProductService.increment (category p) m) l m)
    = sumCounts m + Z.of_nat (List.length l).
Proof.
  induction l as [|p l IH]; intros m; simpl fold_left.
  - simpl. lia.
  - rewrite IH, sumCounts_increment. simpl List.length. lia.
Qed.

(** X21.  What the statistics add up to.  The statistics never fail and
    never change the collection.  [totalProducts] is the number of stored
    products; [activeProducts] and [inactiveProducts] add up to the
    smaller of that number and 10, and so do the counters of
    [byCategory]; [lowStockProducts] counts, over the whole collection,
    the active products with stock at most 10. *)
Theorem getStatistics_figures_add_up (c : Collection.t) :
  exists s,
    ProductService.getStatistics c = (Ok s, c)
    /\ ProductService.totalProducts s = Z.of_nat (List.length c)
    /\ ProductService.activeProducts s + ProductService.inactiveProducts s
       = Z.min (Z.of_nat (List.length c)) 10
    /\ sumCounts (ProductService.byCategory s)
       = Z.min (Z.of_nat (List.length c)) 10
    /\ ProductService.lowStockProducts s
       = Z.of_nat
           (List.length
              (filter (fun p => isActive p && (stock p <=? 10)) c)).
Proof.
  eexists.
  unfold ProductService.getStatistics, bind.
  rewrite (@findAll_run c Collection.all ProductRepository.noOptions 1 10
             eq_refl eq_refl ltac:(lia) ltac:(lia)).
  cbv zeta.
  change (ProductRepository.findLowStock None)
    with (ProductRepository.findLowStock (Some 10)).
  rewrite findLowStock_filter. unfold ret.
  split; [reflexivity|].
  cbn [ProductService.totalProducts ProductService.activeProducts
       ProductService.inactiveProducts ProductService.lowStockProducts
       ProductService.byCategory ProductRepository.total
       ProductRepository.paging ProductRepository.products
       ProductRepository.noOptions ProductRepository.o_sortBy
       ProductRepository.o_sortOrder ProductRepository.orElse].
  rewrite find_all.
  set (page := slice _ _ _).
  assert (Hpage : Z.of_nat (List.length page)
                  = Z.min (Z.of_nat (List.length c)) 10).
  { unfold page. rewrite length_slice by lia. rewrite length_sort. lia. }
  split; [reflexivity|]. split.
  - unfold ProductService.count. rewrite <- Hpage, <- Nat2Z.inj_add.
    rewrite filter_length. reflexivity.
  - split; [|reflexivity].
    rewrite sumCounts_byCategory. simpl. exact Hpage.
Qed.

(** ** What the handlers answer *)

(** X22.  The handlers that read or delete always answer, never with 500:
    lookup by identifier answers 200 or 404, soft delete 200, 400 or 404,
    hard delete 200 or 404, category lookup 200 or 400, statistics always
    200.  In every answer [success] tells whether the status is below 400
    and data is present exactly on success; the handlers that read leave
    the collection as it was. *)
Theorem read_and_delete_handlers_answer
  (c : Collection.t) (id : ObjectId) (now : Z) (cat : string) :
  (exists r, ProductController.getProductById id c = (Some r, c)
             /\ answers [200; 404] r)
  /\ (exists r c', ProductController.deleteProduct id now c = (Some r, c')
                   /\ answers [200; 400; 404] r)
  /\ (exists r c', ProductController.permanentDeleteProduct id c = (Some r, c')
                   /\ answers [200; 404] r)
  /\ (exists r, ProductController.getProductsByCategory cat c = (Some r, c)
                /\ answers [200; 400] r)
  /\ (exists r, ProductController.getStatistics c = (Some r, c)
                /\ answers [200] r).
Proof.
  assert (Hok : forall (A : Type) (codes : list Z) (a : A) (msg : string),
             In 200 codes ->
             answers codes (ApiResponse.send (ApiResponse.success a msg))).
  { intros A codes a msg Hin. unfold answers. cbn.
    split; [exact Hin|]. split; [reflexivity|].
    split; [discriminate | reflexivity]. }
  assert (Herr : forall (A : Type) (codes : list Z) (code : Z) (msg : string),
             In code codes -> 400 <= code ->
             answers codes
                     (@ErrorHandlers.errorHandler A
                        (ApiErr (ApiError.make code msg)))).
  { intros A codes code msg Hin Hge. unfold answers. cbn.
    split; [exact Hin|].
    split; [symmetry; apply Z.ltb_ge; exact Hge|].
    split; [discriminate | intros H; exfalso; apply H; reflexivity]. }
  repeat split.
  - unfold ProductController.getProductById, ProductController.respond,
      ProductService.getProductById, bind, ProductRepository.findById, reads.
    destruct (Collection.findById id c) as [p|]; eexists;
      (split; [reflexivity|]).
    + apply Hok. simpl. tauto.
    + apply Herr; [simpl; tauto | lia].
  - unfold ProductController.deleteProduct, ProductController.respond.
    unfold ProductService.deleteProduct, bind, ProductRepository.findById,
      reads.
    destruct (Collection.findById id c) as [p|] eqn:Hfind.
    + destruct (negb (isActive p)).
      * do 2 eexists. split; [reflexivity|].
        apply Herr; [simpl; tauto | lia].
      * unfold ProductRepository.softDelete, Collection.findByIdAndUpdate.
        rewrite Hfind. do 2 eexists. split; [reflexivity|].
        apply Hok. simpl. tauto.
    + do 2 eexists. split; [reflexivity|].
      apply Herr; [simpl; tauto | lia].
  - unfold ProductController.permanentDeleteProduct,
      ProductController.respond, ProductService.permanentDeleteProduct, bind,
      ProductRepository.findById, reads.
    destruct (Collection.findById id c) as [p|]; do 2 eexists;
      (split; [reflexivity|]).
    + apply Hok. simpl. tauto.
    + apply Herr; [simpl; tauto | lia].
  - unfold ProductController.getProductsByCategory,
      ProductController.respond, ProductService.getProductsByCategory.
    destruct (negb (includes ProductService.validCategories cat)); eexists;
      (split; [reflexivity|]).
    + apply Herr; [simpl; tauto | lia].
    + apply Hok. simpl. tauto.
  - destruct (getStatistics_first_page c) as (s & Hrun & _).
    unfold ProductController.getStatistics, ProductController.respond.
    rewrite Hrun. eexists. split; [reflexivity|].
    apply Hok. simpl. tauto.
Qed.

(** ** Category lookup against the schema *)

Lemma validCategory_not_in_schema (cat : string) :
  includes ProductService.validCategories cat = true ->
  ~ In cat ProductModel.categoryValues.
Proof.
  unfold includes, ProductService.validCategories. simpl. intros Hin.
  repeat (apply orb_true_iff in Hin; destruct Hin as [Hin|Hin];
          [apply String.eqb_eq in Hin; subst cat; simpl;
           intuition discriminate|]).
  discriminate.
Qed.

(** X23.  The category lookup returns nothing from a collection the
    schema allows.  If every stored product has a category of the
    schema's list, the category lookup either rejects the category (400)
    or returns the empty list: the categories it accepts are not the ones
    products can have. *)
Theorem getProductsByCategory_finds_nothing
  (c : Collection.t) (cat : string) :
  Forall (fun p => In (category p) ProductModel.categoryValues) c ->
  ProductService.getProductsByCategory cat c
  = (throwApi 400 ProductService.invalidCategory, c)
  \/ ProductService.getProductsByCategory cat c = (Ok [], c).
Proof.
  intros Hall. unfold ProductService.getProductsByCategory.
  destruct (includes ProductService.validCategories cat) eqn:Hval;
    [right | left; reflexivity].
  cbn [negb]. unfold ProductRepository.findByCategory, reads.
  do 2 f_equal. unfold Collection.find.
  induction c as [|p c IH]; [reflexivity|].
  inversion Hall as [|x l Hp Hc]; subst. simpl.
  replace (Collection.matches _ p) with false; [exact (IH Hc)|].
  symmetry. unfold Collection.matches. simpl.
  replace (String.eqb (category p) cat) with false; [reflexivity|].
  symmetry. apply String.eqb_neq. intros Heq.
  rewrite Heq in Hp.
  exact (@validCategory_not_in_schema cat Hval Hp).
Qed.

Lemma getProductsByCategory_finds_nothing_witness :
  ProductService.getProductsByCategory "books"
    [sampleProduct 1%N "Pen" "Libros" (3 # 2) 40 true 100]
  = (Ok [], [sampleProduct 1%N "Pen" "Libros" (3 # 2) 40 true 100])
  /\ ProductService.getProductsByCategory "Libros" showroom
     = (throwApi 400 ProductService.invalidCategory, showroom).
Proof.
  split.
  - destruct (@getProductsByCategory_finds_nothing
                [sampleProduct 1%N "Pen" "Libros" (3 # 2) 40 true 100]
                "books")
      as [Hbad|Hgood]; [|discriminate Hbad | exact Hgood].
    apply Forall_cons; [simpl; auto 10 | apply Forall_nil].
  - destruct (@getProductsByCategory_finds_nothing showroom "Libros")
      as [Hbad|Hgood]; [|exact Hbad | discriminate Hgood].
    unfold showroom.
    repeat (apply Forall_cons; [simpl; auto 10|]). apply Forall_nil.
Defined.
